(** * SceneManager: texture registry, material registry and shader set-up

    A shallow embedding of the registry code of [SceneManager.cpp]
    (CS-330 final scene): the material list with [FindMaterial] and
    [DefineObjectMaterials], the 16-entry texture array with
    [CreateGLTexture], [BindGLTextures], [DestroyGLTextures],
    [FindTextureID] and [FindTextureSlot], the two shader set-up
    methods that resolve a tag, [SetShaderTexture] and
    [SetShaderMaterial], and [SetTransformations].

    The C++ object is a record, the GL driver, the image decoder, the
    console and the shader manager are explicit state (every call the code
    makes to them is recorded in order), and undefined behaviour (an index
    outside the texture array, a call through a NULL shader manager) is a
    distinguished outcome. *)

From stdpp Require Import base list strings numbers pretty.
From Stdlib Require Import ZArith QArith Lia.

#[local] Open Scope Z_scope.

(** ** Outcomes of a call *)

(** A call either returns, or runs into undefined behaviour that the code
    does not guard against.  [OutOfFuel] marks a loop bound of the model
    that is too small; every result below exhibits the outcome actually
    reached, which is never this one. *)
Inductive outcome (A : Type) : Type :=
| Done (a : A)
| OutOfBounds (index : Z)
| NullPointer
| OutOfFuel.

Arguments Done {A} a.
Arguments OutOfBounds {A} index.
Arguments NullPointer {A}.
Arguments OutOfFuel {A}.

Definition obind {A B} (x : outcome A) (f : A -> outcome B) : outcome B :=
  match x with
  | Done a => f a
  | OutOfBounds i => OutOfBounds i
  | NullPointer => NullPointer
  | OutOfFuel => OutOfFuel
  end.

(** [while (cond) body], run for at most [fuel] executions of the body. *)
Fixpoint while_loop {S : Type} (fuel : nat) (cond : S -> bool)
    (body : S -> outcome S) (s : S) : outcome S :=
  if cond s then
    match fuel with
    | O => OutOfFuel
    | Datatypes.S fuel' => obind (body s) (while_loop fuel' cond body)
    end
  else Done s.

(** ** Data *)

(** [float] values are only stored, copied and handed to the shader by the
    code below (no arithmetic, no comparison); a value is kept as the
    number its source literal spells. *)
Definition float : Type := Q.
Bind Scope Q_scope with float.

Record vec3 : Type := Vec3 { vx : float; vy : float; vz : float }.

(** GLM's [vec4], and [mat4] as its four columns. *)
Record vec4 : Type := Vec4 { v4x : float; v4y : float; v4z : float; v4w : float }.

Record mat4 : Type := Mat4 { col0 : vec4; col1 : vec4; col2 : vec4; col3 : vec4 }.

(** Modelled from the spec: SceneManager.h is not among the sources.  The
    material bundle has the five shading fields and the tag that
    [FindMaterial] and [DefineObjectMaterials] read and write. *)
Module Material.
Record OBJECT_MATERIAL : Type := {
  ambientColor : vec3;
  ambientStrength : float;
  diffuseColor : vec3;
  specularColor : vec3;
  shininess : float;
  tag : string
}.
End Material.
Export Material(OBJECT_MATERIAL).

(** Modelled from the spec: SceneManager.h is not among the sources.  A
    texture entry is a tag and a GPU handle; the handle is an unsigned
    32-bit GL name, since its address is passed to [glGenTextures]. *)
Module Texture.
Record TEXTURE_INFO : Type := {
  tag : string;
  ID : Z
}.
End Texture.
Export Texture(TEXTURE_INFO).

(** Conversions between the 32-bit types involved: [-1] stored into an
    unsigned handle, and a handle returned as [int]. *)
Definition to_uint32 (z : Z) : Z := z mod 2 ^ 32.
Definition to_int32 (z : Z) : Z :=
  let u := z mod 2 ^ 32 in if u <? 2 ^ 31 then u else u - 2 ^ 32.

(** *** The shader manager *)

(** The uniform setters the code calls, each with the uniform's name. *)
Inductive shader_call : Type :=
| setIntValue (name : string) (value : Z)
| setSampler2DValue (name : string) (value : Z)
| setVec3Value (name : string) (value : vec3)
| setFloatValue (name : string) (value : float)
| setMat4Value (name : string) (value : mat4).

(** A shader manager is the sequence of calls it has received, oldest
    first. *)
Definition ShaderManager : Type := list shader_call.

Definition g_ModelName : string := "model".
Definition g_TextureValueName : string := "objectTexture".
Definition g_UseTextureName : string := "bUseTexture".

(** *** The scene manager object *)

(** The fields the registries use; [m_pShaderManager] is [None] for a NULL
    pointer.  The mesh object [m_basicMeshes] plays no part here. *)
Record SceneManager : Type := {
  m_pShaderManager : option ShaderManager;
  m_textureIDs : list TEXTURE_INFO;
  m_loadedTextures : Z;
  m_objectMaterials : list OBJECT_MATERIAL
}.

Definition with_shader (p : option ShaderManager) (this : SceneManager) : SceneManager :=
  {| m_pShaderManager := p;
     m_textureIDs := m_textureIDs this;
     m_loadedTextures := m_loadedTextures this;
     m_objectMaterials := m_objectMaterials this |}.

Definition with_textureIDs (a : list TEXTURE_INFO) (this : SceneManager) : SceneManager :=
  {| m_pShaderManager := m_pShaderManager this;
     m_textureIDs := a;
     m_loadedTextures := m_loadedTextures this;
     m_objectMaterials := m_objectMaterials this |}.

Definition with_loadedTextures (n : Z) (this : SceneManager) : SceneManager :=
  {| m_pShaderManager := m_pShaderManager this;
     m_textureIDs := m_textureIDs this;
     m_loadedTextures := n;
     m_objectMaterials := m_objectMaterials this |}.

Definition with_objectMaterials (v : list OBJECT_MATERIAL) (this : SceneManager) : SceneManager :=
  {| m_pShaderManager := m_pShaderManager this;
     m_textureIDs := m_textureIDs this;
     m_loadedTextures := m_loadedTextures this;
     m_objectMaterials := v |}.

(** Element [index] of an array or vector; an index outside it is
    undefined behaviour in the source. *)
Definition at_index {A : Type} (a : list A) (index : Z) : outcome A :=
  if index <? 0 then OutOfBounds index
  else match a !! Z.to_nat index with
       | Some x => Done x
       | None => OutOfBounds index
       end.

(** ** The material registry *)

(** The five assignments [material.f = m_objectMaterials[index].f] of
    [FindMaterial]; the tag of [material] is not assigned. *)
Definition assign_fields (material e : OBJECT_MATERIAL) : OBJECT_MATERIAL :=
  {| Material.ambientColor := Material.ambientColor e;
     Material.ambientStrength := Material.ambientStrength e;
     Material.diffuseColor := Material.diffuseColor e;
     Material.specularColor := Material.specularColor e;
     Material.shininess := Material.shininess e;
     Material.tag := Material.tag material |}.

(** The loop of [FindMaterial] over (index, bFound, material). *)
Definition FindMaterial_cond (this : SceneManager)
    (s : Z * bool * OBJECT_MATERIAL) : bool :=
  let '(index, bFound, _) := s in
  (index <? Z.of_nat (length (m_objectMaterials this))) && negb bFound.

Definition FindMaterial_body (this : SceneManager) (tag : string)
    (s : Z * bool * OBJECT_MATERIAL) : outcome (Z * bool * OBJECT_MATERIAL) :=
  let '(index, bFound, material) := s in
  obind (at_index (m_objectMaterials this) index) (fun e =>
    if String.eqb (Material.tag e) tag then
      Done (index, true, assign_fields material e)
    else Done (index + 1, bFound, material)).

(** [FindMaterial(tag, material)]: the returned flag and the contents of
    the reference parameter [material] after the call. *)
Definition FindMaterial (this : SceneManager) (tag : string)
    (material : OBJECT_MATERIAL) : outcome (bool * OBJECT_MATERIAL) :=
  if Z.of_nat (length (m_objectMaterials this)) =? 0 then Done (false, material)
  else
    obind (while_loop (length (m_objectMaterials this))
             (FindMaterial_cond this) (FindMaterial_body this tag)
             (0, false, material))
      (fun '(_, _, material) => Done (true, material)).

(** [DefineObjectMaterials]: [goldMaterial] is filled in and pushed;
    [woodMaterial] is filled in, then filled in again with the values
    under the "plastic" tag, and never pushed; [plasticMaterial] is
    declared and not used. *)
Definition DefineObjectMaterials (this : SceneManager) : SceneManager :=
  let goldMaterial :=
    {| Material.ambientColor := Vec3 0.2 0.2 0.2;
       Material.ambientStrength := 5.0;
       Material.diffuseColor := Vec3 0.2 0.2 0.2;
       Material.specularColor := Vec3 0.5 0.5 0.5;
       Material.shininess := 12.0;
       Material.tag := "metal" |} in
  let this := with_objectMaterials (m_objectMaterials this ++ [goldMaterial]) this in
  let woodMaterial :=
    {| Material.ambientColor := Vec3 0.1 0.1 0.1;
       Material.ambientStrength := 2.0;
       Material.diffuseColor := Vec3 0.3 0.3 0.3;
       Material.specularColor := Vec3 0.1 0.1 0.1;
       Material.shininess := 4.0;
       Material.tag := "wood" |} in
  let woodMaterial :=
    {| Material.ambientColor := Vec3 0.1 0.1 0.1;
       Material.ambientStrength := 1.5;
       Material.diffuseColor := Vec3 0.3 0.3 0.3;
       Material.specularColor := Vec3 0.1 0.1 0.1;
       Material.shininess := 1.0;
       Material.tag := "plastic" |} in
  this.

(** ** The world outside the object *)

(** What [stbi_load] reports for a decoded file. *)
Record Image : Type := {
  width : Z;
  height : Z;
  colorChannels : Z
}.

(** GL constants, with their values from the GL headers. *)
Definition GL_TEXTURE_2D : Z := 0x0DE1.
Definition GL_TEXTURE_WRAP_S : Z := 0x2802.
Definition GL_TEXTURE_WRAP_T : Z := 0x2803.
Definition GL_TEXTURE_MIN_FILTER : Z := 0x2801.
Definition GL_TEXTURE_MAG_FILTER : Z := 0x2800.
Definition GL_REPEAT : Z := 0x2901.
Definition GL_LINEAR : Z := 0x2601.
Definition GL_RGB : Z := 0x1907.
Definition GL_RGBA : Z := 0x1908.
Definition GL_RGB8 : Z := 0x8051.
Definition GL_RGBA8 : Z := 0x8058.
Definition GL_UNSIGNED_BYTE : Z := 0x1401.
Definition GL_TEXTURE0 : Z := 0x84C0.

(** The GL entry points.  [glGenTextures] is recorded with the one name
    it hands out; [glTexImage2D] with the decoder buffer it uploads.
    [glDeleteTextures] is the entry point that releases a texture name. *)
Inductive gl_call : Type :=
| glGenTextures (name : Z)
| glBindTexture (target texture : Z)
| glTexParameteri (target pname param : Z)
| glTexImage2D (target level internalformat width height border format type : Z)
    (pixels : nat)
| glGenerateMipmap (target : Z)
| glActiveTexture (texture : Z)
| glDeleteTextures (name : Z).

(** The image decoder (which files decode, and to what; the buffers it
    has handed out and not yet taken back), the GL driver (the names it
    will generate, in order, and the calls received so far) and the lines
    written to [std::cout]. *)
Record Env : Type := {
  files : string -> option Image;
  flip_vertically_on_load : bool;
  stbi_allocated : nat;
  stbi_live : list nat;
  gl_names : nat -> Z;
  gl_generated : nat;
  gl_calls : list gl_call;
  cout : list string
}.

Abbreviation State := (SceneManager * Env)%type.

(** A method of the object: it may change the object and the world, and
    may run into undefined behaviour. *)
Definition M (A : Type) : Type := State -> outcome (A * State).

Definition ret {A} (a : A) : M A := fun st => Done (a, st).

Definition bind {A B} (c : M A) (k : A -> M B) : M B :=
  fun st => obind (c st) (fun '(a, st') => k a st').

Declare Scope method_scope.
Delimit Scope method_scope with method.
Notation "x <- c ;; k" := (bind c (fun x => k))
  (at level 100, c at next level, right associativity) : method_scope.
Notation "c ;; k" := (bind c (fun _ => k))
  (at level 100, right associativity) : method_scope.
#[local] Open Scope method_scope.

(** Lift a read-only member function. *)
Definition query {A} (f : SceneManager -> outcome A) : M A :=
  fun st => obind (f (fst st)) (fun a => Done (a, st)).

Definition stbi_set_flip_vertically_on_load (b : bool) : M unit :=
  fun '(this, env) =>
    Done (tt, (this,
      {| files := files env; flip_vertically_on_load := b;
         stbi_allocated := stbi_allocated env; stbi_live := stbi_live env;
         gl_names := gl_names env; gl_generated := gl_generated env;
         gl_calls := gl_calls env; cout := cout env |})).

(** [stbi_load]: [None] for the null pointer; otherwise a fresh buffer
    and the decoded width, height and channel count. *)
Definition stbi_load (filename : string) : M (option (nat * Image)) :=
  fun '(this, env) =>
    match files env filename with
    | None => Done (None, (this, env))
    | Some img =>
      let p := stbi_allocated env in
      Done (Some (p, img), (this,
        {| files := files env;
           flip_vertically_on_load := flip_vertically_on_load env;
           stbi_allocated := S p; stbi_live := stbi_live env ++ [p];
           gl_names := gl_names env; gl_generated := gl_generated env;
           gl_calls := gl_calls env; cout := cout env |}))
    end.

Definition stbi_image_free (p : nat) : M unit :=
  fun '(this, env) =>
    Done (tt, (this,
      {| files := files env;
         flip_vertically_on_load := flip_vertically_on_load env;
         stbi_allocated := stbi_allocated env;
         stbi_live := filter (fun q => q ≠ p) (stbi_live env);
         gl_names := gl_names env; gl_generated := gl_generated env;
         gl_calls := gl_calls env; cout := cout env |})).

Definition with_gl (generated : nat) (calls : list gl_call) (env : Env) : Env :=
  {| files := files env;
     flip_vertically_on_load := flip_vertically_on_load env;
     stbi_allocated := stbi_allocated env; stbi_live := stbi_live env;
     gl_names := gl_names env; gl_generated := generated;
     gl_calls := calls; cout := cout env |}.

(** A GL call with no result. *)
Definition gl (c : gl_call) : M unit :=
  fun '(this, env) =>
    Done (tt, (this, with_gl (gl_generated env) (gl_calls env ++ [c]) env)).

(** [glGenTextures(1, &name)]: the driver's next name. *)
Definition glGenTextures1 : M Z :=
  fun '(this, env) =>
    let name := gl_names env (gl_generated env) in
    Done (name, (this, with_gl (S (gl_generated env))
                         (gl_calls env ++ [glGenTextures name]) env)).

(** One line on [std::cout], ended by [std::endl]. *)
Definition cout_line (line : string) : M unit :=
  fun '(this, env) =>
    Done (tt, (this,
      {| files := files env;
         flip_vertically_on_load := flip_vertically_on_load env;
         stbi_allocated := stbi_allocated env; stbi_live := stbi_live env;
         gl_names := gl_names env; gl_generated := gl_generated env;
         gl_calls := gl_calls env; cout := cout env ++ [line] |})).

(** A call through [m_pShaderManager->]. *)
Definition shader (c : shader_call) : M unit :=
  fun '(this, env) =>
    match m_pShaderManager this with
    | None => NullPointer
    | Some calls => Done (tt, (with_shader (Some (calls ++ [c])) this, env))
    end.

(** ** The texture registry *)

(** The constructor: all 16 entries blank, nothing loaded. *)
Definition SceneManager_new (pShaderManager : option ShaderManager) : SceneManager :=
  {| m_pShaderManager := pShaderManager;
     m_textureIDs := replicate 16 {| Texture.tag := "/0"; Texture.ID := to_uint32 (-1) |};
     m_loadedTextures := 0;
     m_objectMaterials := [] |}.

(** [m_textureIDs[index].ID = id] and [m_textureIDs[index].tag = tag]. *)
Definition set_texture_ID (index id : Z) : M unit :=
  fun '(this, env) =>
    obind (at_index (m_textureIDs this) index) (fun e =>
      Done (tt, (with_textureIDs
                   (<[Z.to_nat index := {| Texture.tag := Texture.tag e; Texture.ID := id |}]>
                      (m_textureIDs this)) this, env))).

Definition set_texture_tag (index : Z) (tag : string) : M unit :=
  fun '(this, env) =>
    obind (at_index (m_textureIDs this) index) (fun e =>
      Done (tt, (with_textureIDs
                   (<[Z.to_nat index := {| Texture.tag := tag; Texture.ID := Texture.ID e |}]>
                      (m_textureIDs this)) this, env))).

Definition get_loadedTextures : M Z :=
  fun st => Done (m_loadedTextures (fst st), st).

(** [m_loadedTextures++]; the counter is below 16 whenever this is
    reached, far from the end of [int]. *)
Definition incr_loadedTextures : M unit :=
  fun '(this, env) =>
    Done (tt, (with_loadedTextures (m_loadedTextures this + 1) this, env)).

(** The tail of the successful path of [CreateGLTexture], after the
    upload. *)
Definition CreateGLTexture_register (image : nat) (textureID : Z) (tag : string) : M bool :=
  gl (glGenerateMipmap GL_TEXTURE_2D) ;;
  stbi_image_free image ;;
  gl (glBindTexture GL_TEXTURE_2D 0) ;;
  n <- get_loadedTextures ;;
  set_texture_ID n textureID ;;
  n <- get_loadedTextures ;;
  set_texture_tag n tag ;;
  incr_loadedTextures ;;
  ret true.

Definition CreateGLTexture (filename : string) (tag : string) : M bool :=
  stbi_set_flip_vertically_on_load true ;;
  loaded <- stbi_load filename ;;
  match loaded with
  | Some (image, img) =>
    cout_line ("Successfully loaded image:" +:+ filename
               +:+ ", width:" +:+ pretty (width img)
               +:+ ", height:" +:+ pretty (height img)
               +:+ ", channels:" +:+ pretty (colorChannels img)) ;;
    textureID <- glGenTextures1 ;;
    gl (glBindTexture GL_TEXTURE_2D textureID) ;;
    gl (glTexParameteri GL_TEXTURE_2D GL_TEXTURE_WRAP_S GL_REPEAT) ;;
    gl (glTexParameteri GL_TEXTURE_2D GL_TEXTURE_WRAP_T GL_REPEAT) ;;
    gl (glTexParameteri GL_TEXTURE_2D GL_TEXTURE_MIN_FILTER GL_LINEAR) ;;
    gl (glTexParameteri GL_TEXTURE_2D GL_TEXTURE_MAG_FILTER GL_LINEAR) ;;
    if colorChannels img =? 3 then
      gl (glTexImage2D GL_TEXTURE_2D 0 GL_RGB8 (width img) (height img) 0
            GL_RGB GL_UNSIGNED_BYTE image) ;;
      CreateGLTexture_register image textureID tag
    else if colorChannels img =? 4 then
      gl (glTexImage2D GL_TEXTURE_2D 0 GL_RGBA8 (width img) (height img) 0
            GL_RGBA GL_UNSIGNED_BYTE image) ;;
      CreateGLTexture_register image textureID tag
    else
      cout_line ("Not implemented to handle image with "
                 +:+ pretty (colorChannels img) +:+ " channels") ;;
      ret false
  | None =>
    cout_line ("Could not load image:" +:+ filename) ;;
    ret false
  end.

(** [for (int i = 0; i < m_loadedTextures; i++) body(i)]. *)
Definition for_loadedTextures (body : Z -> M unit) : M unit :=
  fun st =>
    obind (while_loop (Z.to_nat (m_loadedTextures (fst st)))
             (fun '(i, st) => i <? m_loadedTextures (fst st))
             (fun '(i, st) => obind (body i st) (fun '(_, st') => Done (i + 1, st')))
             (0, st))
      (fun '(_, st') => Done (tt, st')).

Definition BindGLTextures_body (i : Z) : M unit :=
  gl (glActiveTexture (GL_TEXTURE0 + i)) ;;
  e <- query (fun this => at_index (m_textureIDs this) i) ;;
  gl (glBindTexture GL_TEXTURE_2D (Texture.ID e)).

Definition BindGLTextures : M unit := for_loadedTextures BindGLTextures_body.

Definition DestroyGLTextures_body (i : Z) : M unit :=
  name <- glGenTextures1 ;;
  set_texture_ID i name.

Definition DestroyGLTextures : M unit := for_loadedTextures DestroyGLTextures_body.

(** The loops of [FindTextureID] and [FindTextureSlot] run over
    (result, index, bFound). *)
Definition FindTexture_cond (this : SceneManager) (s : Z * Z * bool) : bool :=
  let '(_, index, bFound) := s in
  (index <? m_loadedTextures this) && negb bFound.

Definition FindTextureID (this : SceneManager) (tag : string) : outcome Z :=
  obind (while_loop (Z.to_nat (m_loadedTextures this))
           (FindTexture_cond this)
           (fun '(textureID, index, bFound) =>
              obind (at_index (m_textureIDs this) index) (fun e =>
                if String.eqb (Texture.tag e) tag
                then Done (to_int32 (Texture.ID e), index, true)
                else Done (textureID, index + 1, bFound)))
           (-1, 0, false))
    (fun '(textureID, _, _) => Done textureID).

Definition FindTextureSlot (this : SceneManager) (tag : string) : outcome Z :=
  obind (while_loop (Z.to_nat (m_loadedTextures this))
           (FindTexture_cond this)
           (fun '(textureSlot, index, bFound) =>
              obind (at_index (m_textureIDs this) index) (fun e =>
                if String.eqb (Texture.tag e) tag
                then Done (index, index, true)
                else Done (textureSlot, index + 1, bFound)))
           (-1, 0, false))
    (fun '(textureSlot, _, _) => Done textureSlot).

(** ** Shader set-up *)

(** [SetTransformations].  GLM is a library outside this repository: its
    [scale], [rotate], [radians] and [translate] and the product of two
    [mat4] are taken as they come, as parameters.  The product
    [translation * rotationX * rotationY * rotationZ * scale] associates to
    the left, as C++ reads it. *)
Section GLM.
Variable glm_scale : vec3 -> mat4.
Variable glm_rotate : float -> vec3 -> mat4.
Variable glm_radians : float -> float.
Variable glm_translate : vec3 -> mat4.
Variable mat4_mul : mat4 -> mat4 -> mat4.

Definition SetTransformations (scaleXYZ : vec3)
    (XrotationDegrees YrotationDegrees ZrotationDegrees : float)
    (positionXYZ : vec3) : M unit :=
  fun st =>
    let scale := glm_scale scaleXYZ in
    let rotationX := glm_rotate (glm_radians XrotationDegrees) (Vec3 1.0 0.0 0.0) in
    let rotationY := glm_rotate (glm_radians YrotationDegrees) (Vec3 0.0 1.0 0.0) in
    let rotationZ := glm_rotate (glm_radians ZrotationDegrees) (Vec3 0.0 0.0 1.0) in
    let translation := glm_translate positionXYZ in
    let modelView :=
      mat4_mul (mat4_mul (mat4_mul (mat4_mul translation rotationX) rotationY)
                  rotationZ) scale in
    match m_pShaderManager (fst st) with
    | Some _ => shader (setMat4Value g_ModelName modelView) st
    | None => Done (tt, st)
    end.
End GLM.

Definition SetShaderTexture (textureTag : string) : M unit :=
  fun st =>
    match m_pShaderManager (fst st) with
    | Some _ =>
      (shader (setIntValue g_UseTextureName 1) ;;
       textureID <- query (fun this => FindTextureSlot this textureTag) ;;
       shader (setSampler2DValue g_TextureValueName textureID)) st
    | None => Done (tt, st)
    end.

(** The five uniform calls of [SetShaderMaterial]. *)
Definition material_calls (material : OBJECT_MATERIAL) : list shader_call :=
  [setVec3Value "material.ambientColor" (Material.ambientColor material);
   setFloatValue "material.ambientStrength" (Material.ambientStrength material);
   setVec3Value "material.diffuseColor" (Material.diffuseColor material);
   setVec3Value "material.specularColor" (Material.specularColor material);
   setFloatValue "material.shininess" (Material.shininess material)].

(** "pass the material properties into the shader". *)
Definition SetShaderMaterial_pass (material : OBJECT_MATERIAL) : M unit :=
  shader (setVec3Value "material.ambientColor" (Material.ambientColor material)) ;;
  shader (setFloatValue "material.ambientStrength" (Material.ambientStrength material)) ;;
  shader (setVec3Value "material.diffuseColor" (Material.diffuseColor material)) ;;
  shader (setVec3Value "material.specularColor" (Material.specularColor material)) ;;
  shader (setFloatValue "material.shininess" (Material.shininess material)).

(** [SetShaderMaterial]; [material] is what the uninitialised local of
    that name holds when the method is entered. *)
Definition SetShaderMaterial (materialTag : string) (material : OBJECT_MATERIAL) : M unit :=
  fun st =>
    if Z.of_nat (length (m_objectMaterials (fst st))) >? 0 then
      (found <- query (fun this => FindMaterial this materialTag material) ;;
       let '(bReturn, material) := found in
       if bReturn then SetShaderMaterial_pass material else ret tt) st
    else Done (tt, st).

(** ** Sequences of loads *)

(** A run of [CreateGLTexture] calls, one per (file name, tag), with the
    flag each call returned. *)
Fixpoint load_all (calls : list (string * string)) : M (list bool) :=
  match calls with
  | [] => ret []
  | (filename, tag) :: rest =>
    b <- CreateGLTexture filename tag ;;
    bs <- load_all rest ;;
    ret (b :: bs)
  end.

(** ** Reading the registry *)

(** The entries in use: the first [m_loadedTextures] of the array. *)
Definition loaded_entries (this : SceneManager) : list TEXTURE_INFO :=
  take (Z.to_nat (m_loadedTextures this)) (m_textureIDs this).

(** The texture array has its 16 entries and the counter lies within
    it. *)
Definition registry_ok (this : SceneManager) : Prop :=
  length (m_textureIDs this) = 16%nat /\ 0 <= m_loadedTextures this <= 16.

(** A decoded image that [CreateGLTexture] accepts. *)
Definition channels_ok (img : Image) : bool :=
  (colorChannels img =? 3) || (colorChannels img =? 4).

(** Whether a call on [filename] returns true. *)
Definition succeeds (files : string -> option Image) (filename : string) : bool :=
  match files filename with
  | Some img => channels_ok img
  | None => false
  end.

(** The entries a run of calls registers, in order: one per call whose
    file decodes to 3 or 4 channels, with the call's tag and the name the
    driver generated during that call ([k] names were generated before the
    run; every decoded file takes one). *)
Fixpoint registered (files : string -> option Image) (names : nat -> Z)
    (k : nat) (calls : list (string * string)) : list TEXTURE_INFO :=
  match calls with
  | [] => []
  | (filename, tag) :: rest =>
    match files filename with
    | None => registered files names k rest
    | Some img =>
      if channels_ok img
      then {| Texture.tag := tag; Texture.ID := names k |}
           :: registered files names (S k) rest
      else registered files names (S k) rest
    end
  end.

(** Texture unit [i] made active and the entry's handle bound to it, for
    each entry in turn, units counted from [i]. *)
Fixpoint bind_calls (i : Z) (entries : list TEXTURE_INFO) : list gl_call :=
  match entries with
  | [] => []
  | e :: rest =>
    glActiveTexture (GL_TEXTURE0 + i)
      :: glBindTexture GL_TEXTURE_2D (Texture.ID e)
      :: bind_calls (i + 1) rest
  end.

(** The loop body the two tag scans share; [hit index e] is what a match
    at [index] on entry [e] stores in the result. *)
Definition scan_body (this : SceneManager) (tag : string)
    (hit : Z -> TEXTURE_INFO -> Z) (s : Z * Z * bool) : outcome (Z * Z * bool) :=
  let '(result, index, bFound) := s in
  obind (at_index (m_textureIDs this) index) (fun e =>
    if String.eqb (Texture.tag e) tag
    then Done (hit index e, index, true)
    else Done (result, index + 1, bFound)).

(** ** An instance of the GLM operations, for the examples *)

(** GLM's formulas in exact rational arithmetic: the translation and the
    scaling of the identity, the product column by column, the rotation
    about a unit axis, with pi taken as 355/113 and the cosine and sine
    series cut after their second term. *)
Definition exact_translate (v : vec3) : mat4 :=
  Mat4 (Vec4 1 0 0 0) (Vec4 0 1 0 0) (Vec4 0 0 1 0) (Vec4 (vx v) (vy v) (vz v) 1).

Definition exact_scale (v : vec3) : mat4 :=
  Mat4 (Vec4 (vx v) 0 0 0) (Vec4 0 (vy v) 0 0) (Vec4 0 0 (vz v) 0) (Vec4 0 0 0 1).

Definition exact_apply (a : mat4) (v : vec4) : vec4 :=
  Vec4 (v4x (col0 a) * v4x v + v4x (col1 a) * v4y v + v4x (col2 a) * v4z v + v4x (col3 a) * v4w v)
       (v4y (col0 a) * v4x v + v4y (col1 a) * v4y v + v4y (col2 a) * v4z v + v4y (col3 a) * v4w v)
       (v4z (col0 a) * v4x v + v4z (col1 a) * v4y v + v4z (col2 a) * v4z v + v4z (col3 a) * v4w v)
       (v4w (col0 a) * v4x v + v4w (col1 a) * v4y v + v4w (col2 a) * v4z v + v4w (col3 a) * v4w v).

Definition exact_mul (a b : mat4) : mat4 :=
  Mat4 (exact_apply a (col0 b)) (exact_apply a (col1 b))
       (exact_apply a (col2 b)) (exact_apply a (col3 b)).

Definition exact_radians (degrees : float) : float :=
  (degrees * (355 # 113) / 180)%Q.

Definition exact_rotate (angle : float) (axis : vec3) : mat4 :=
  let c := (1 - angle * angle / 2)%Q in
  let s := (angle - angle * angle * angle / 6)%Q in
  let t := Vec3 ((1 - c) * vx axis) ((1 - c) * vy axis) ((1 - c) * vz axis) in
  Mat4 (Vec4 (c + vx t * vx axis) (vx t * vy axis + s * vz axis)
             (vx t * vz axis - s * vy axis) 0)
       (Vec4 (vy t * vx axis - s * vz axis) (c + vy t * vy axis)
             (vy t * vz axis + s * vx axis) 0)
       (Vec4 (vz t * vx axis + s * vy axis) (vz t * vy axis - s * vx axis)
             (c + vz t * vz axis) 0)
       (Vec4 0 0 0 1).

(** ** A small scene for the examples *)

Definition example_files (filename : string) : option Image :=
  if String.eqb filename "textures/wood.jpg"
  then Some {| width := 512; height := 512; colorChannels := 3 |}
  else if String.eqb filename "textures/leaf.png"
  then Some {| width := 64; height := 64; colorChannels := 4 |}
  else if String.eqb filename "textures/grey.png"
  then Some {| width := 8; height := 8; colorChannels := 1 |}
  else None.

(** Nothing decoded or generated yet; the driver hands out 1, 2, 3, ... *)
Definition example_env : Env :=
  {| files := example_files;
     flip_vertically_on_load := false;
     stbi_allocated := 0;
     stbi_live := [];
     gl_names := fun k => Z.of_nat k + 1;
     gl_generated := 0;
     gl_calls := [];
     cout := [] |}.

(** The object and the world after the constructor and one successful
    load of "textures/wood.jpg" under the tag "wood". *)
Definition one_texture : SceneManager :=
  {| m_pShaderManager := Some [];
     m_textureIDs :=
       {| Texture.tag := "wood"; Texture.ID := 1 |}
         :: replicate 15 {| Texture.tag := "/0"; Texture.ID := to_uint32 (-1) |};
     m_loadedTextures := 1;
     m_objectMaterials := [] |}.

Definition one_texture_env : Env :=
  {| files := example_files;
     flip_vertically_on_load := true;
     stbi_allocated := 1;
     stbi_live := [];
     gl_names := fun k => Z.of_nat k + 1;
     gl_generated := 1;
     gl_calls :=
       [glGenTextures 1;
        glBindTexture GL_TEXTURE_2D 1;
        glTexParameteri GL_TEXTURE_2D GL_TEXTURE_WRAP_S GL_REPEAT;
        glTexParameteri GL_TEXTURE_2D GL_TEXTURE_WRAP_T GL_REPEAT;
        glTexParameteri GL_TEXTURE_2D GL_TEXTURE_MIN_FILTER GL_LINEAR;
        glTexParameteri GL_TEXTURE_2D GL_TEXTURE_MAG_FILTER GL_LINEAR;
        glTexImage2D GL_TEXTURE_2D 0 GL_RGB8 512 512 0 GL_RGB GL_UNSIGNED_BYTE 0;
        glGenerateMipmap GL_TEXTURE_2D;
        glBindTexture GL_TEXTURE_2D 0];
     cout :=
       ["Successfully loaded image:textures/wood.jpg, width:512, height:512, channels:3"%string] |}.

(** Five calls: two on the same file and tag, one on an image with one
    channel, one on a file that does not decode. *)
Definition example_calls : list (string * string) :=
  [("textures/wood.jpg", "wood"); ("textures/grey.png", "grey");
   ("textures/leaf.png", "leaf"); ("textures/none.jpg", "none");
   ("textures/wood.jpg", "wood")]%string.

(** Some contents for a local that was never assigned. *)
Definition stale_material : OBJECT_MATERIAL :=
  {| Material.ambientColor := Vec3 7.0 7.0 7.0;
     Material.ambientStrength := 7.0;
     Material.diffuseColor := Vec3 7.0 7.0 7.0;
     Material.specularColor := Vec3 7.0 7.0 7.0;
     Material.shininess := 7.0;
     Material.tag := "" |}.

(** ** The scene's textures *)

(** [LoadSceneTextures]: nine loads, the flag of each stored in [bReturn]
    and not looked at, then [BindGLTextures]. *)
Definition LoadSceneTextures : M unit :=
  bReturn <- CreateGLTexture "textures/plastic.jpg" "plastic" ;;
  bReturn <- CreateGLTexture "textures/wood.jpg" "wood" ;;
  bReturn <- CreateGLTexture "textures/red.jpg" "red" ;;
  bReturn <- CreateGLTexture "textures/grip.jpg" "grip" ;;
  bReturn <- CreateGLTexture "textures/brick.jpg" "brick" ;;
  bReturn <- CreateGLTexture "textures/blue.jpg" "blue" ;;
  bReturn <- CreateGLTexture "textures/silver.jpg" "silver" ;;
  bReturn <- CreateGLTexture "textures/yellow.jpg" "yellow" ;;
  bReturn <- CreateGLTexture "textures/metal2.jpg" "metal2" ;;
  BindGLTextures.

(** The nine (file name, tag) pairs of [LoadSceneTextures], in order. *)
Definition scene_textures : list (string * string) :=
  [("textures/plastic.jpg", "plastic"); ("textures/wood.jpg", "wood");
   ("textures/red.jpg", "red"); ("textures/grip.jpg", "grip");
   ("textures/brick.jpg", "brick"); ("textures/blue.jpg", "blue");
   ("textures/silver.jpg", "silver"); ("textures/yellow.jpg", "yellow");
   ("textures/metal2.jpg", "metal2")]%string.

(** ** Book-keeping for the world *)

(** Whether [stbi_load] returns a buffer for [filename]. *)
Definition decodes (files : string -> option Image) (filename : string) : bool :=
  match files filename with
  | Some _ => true
  | None => false
  end.

(** The decoder has handed out buffers 0 .. [stbi_allocated] - 1 only. *)
Definition heap_ok (env : Env) : Prop :=
  Forall (fun q => (q < stbi_allocated env)%nat) (stbi_live env).

(** The GL calls of a load on a decoded file, up to the upload: the name
    generated, bound, and given its wrapping and filtering parameters. *)
Definition texture_setup_calls (name : Z) : list gl_call :=
  [glGenTextures name;
   glBindTexture GL_TEXTURE_2D name;
   glTexParameteri GL_TEXTURE_2D GL_TEXTURE_WRAP_S GL_REPEAT;
   glTexParameteri GL_TEXTURE_2D GL_TEXTURE_WRAP_T GL_REPEAT;
   glTexParameteri GL_TEXTURE_2D GL_TEXTURE_MIN_FILTER GL_LINEAR;
   glTexParameteri GL_TEXTURE_2D GL_TEXTURE_MAG_FILTER GL_LINEAR].

(** The upload of a decoded image from buffer [p]: RGB for 3 channels,
    RGBA otherwise (that is, for 4). *)
Definition upload_call (img : Image) (p : nat) : gl_call :=
  if colorChannels img =? 3
  then glTexImage2D GL_TEXTURE_2D 0 GL_RGB8 (width img) (height img) 0
         GL_RGB GL_UNSIGNED_BYTE p
  else glTexImage2D GL_TEXTURE_2D 0 GL_RGBA8 (width img) (height img) 0
         GL_RGBA GL_UNSIGNED_BYTE p.

(** The entries with their handles replaced, in order, by the names the
    driver generates from the [k]-th on. *)
Fixpoint renamed (names : nat -> Z) (k : nat) (entries : list TEXTURE_INFO)
    : list TEXTURE_INFO :=
  match entries with
  | [] => []
  | e :: rest =>
    {| Texture.tag := Texture.tag e; Texture.ID := names k |}
      :: renamed names (S k) rest
  end.

(** A world in which every file decodes to an RGB image. *)
Definition all_files_env : Env :=
  {| files := fun _ => Some {| width := 256; height := 256; colorChannels := 3 |};
     flip_vertically_on_load := false;
     stbi_allocated := 0;
     stbi_live := [];
     gl_names := fun k => Z.of_nat k + 1;
     gl_generated := 0;
     gl_calls := [];
     cout := [] |}.

(** The gold material of [DefineObjectMaterials]. *)
Definition goldMaterial : OBJECT_MATERIAL :=
  {| Material.ambientColor := Vec3 0.2 0.2 0.2;
     Material.ambientStrength := 5.0;
     Material.diffuseColor := Vec3 0.2 0.2 0.2;
     Material.specularColor := Vec3 0.5 0.5 0.5;
     Material.shininess := 12.0;
     Material.tag := "metal" |}.

(** * Properties *)

(** ** Array access *)

Lemma at_index_Some {A} (a : list A) (index : Z) (x : A) :
  0 <= index -> a !! Z.to_nat index = Some x -> at_index a index = Done x.
Proof.
  intros Hge Hx. unfold at_index.
  destruct (Z.ltb_spec index 0) as [Hneg|_]; [lia|].
  now rewrite Hx.
Qed.

Lemma at_index_outside {A} (a : list A) (index : Z) :
  index < 0 \/ Z.of_nat (length a) <= index -> at_index a index = OutOfBounds index.
Proof.
  intros Hout. unfold at_index.
  destruct (Z.ltb_spec index 0) as [Hneg|Hge]; [reflexivity|].
  destruct Hout as [Hlt|Hlen]; [lia|].
  rewrite (proj2 (lookup_ge_None a (Z.to_nat index))); [reflexivity|lia].
Qed.

Lemma loaded_entries_lookup this (i : nat) :
  (i < Z.to_nat (m_loadedTextures this))%nat ->
  loaded_entries this !! i = m_textureIDs this !! i.
Proof. intros Hi. unfold loaded_entries. now apply lookup_take_lt. Qed.

Lemma loaded_entries_length this :
  registry_ok this -> length (loaded_entries this) = Z.to_nat (m_loadedTextures this).
Proof.
  intros [Hlen Hn]. unfold loaded_entries. rewrite length_take. lia.
Qed.

(** ** Loops *)

Lemma while_loop_exit {S} (fuel : nat) (cond : S -> bool) body (s : S) :
  cond s = false -> while_loop fuel cond body s = Done s.
Proof. intros Hc. destruct fuel; cbn; now rewrite Hc. Qed.

Lemma while_loop_step {S} (fuel : nat) (cond : S -> bool) body (s : S) :
  cond s = true ->
  while_loop (Datatypes.S fuel) cond body s
  = obind (body s) (while_loop fuel cond body).
Proof. intros Hc. cbn. now rewrite Hc. Qed.

(** ** The tag scan of [FindTextureID] and [FindTextureSlot] *)

Section TagScan.
Variable this : SceneManager.
Variable tag : string.
(** What a hit at [index] on entry [e] stores in the result. *)
Variable hit : Z -> TEXTURE_INFO -> Z.
Hypothesis Hok : registry_ok this.

(** From [index], the loop stops at the first entry in use that carries
    the tag, or at the end of the entries in use with the result
    untouched. *)
Lemma scan_from (fuel : nat) (index result : Z) :
  0 <= index <= m_loadedTextures this ->
  (Z.to_nat (m_loadedTextures this - index) <= fuel)%nat ->
  while_loop fuel (FindTexture_cond this) (scan_body this tag hit)
    (result, index, false)
  = Done (match list_find (fun e => Texture.tag e = tag)
                  (drop (Z.to_nat index) (loaded_entries this)) with
          | Some (k, e) => (hit (index + Z.of_nat k) e, index + Z.of_nat k, true)
          | None => (result, m_loadedTextures this, false)
          end).
Proof.
  revert index result.
  induction fuel as [|fuel IH]; intros index result Hi Hfuel.
  - assert (index = m_loadedTextures this) as -> by lia.
    cbn. rewrite Z.ltb_irrefl. cbn.
    rewrite drop_ge by (rewrite loaded_entries_length by exact Hok; lia).
    reflexivity.
  - cbn. destruct (Z.ltb_spec index (m_loadedTextures this)) as [Hlt|Hge]; cbn.
    + assert (Z.to_nat index < Z.to_nat (m_loadedTextures this))%nat as Hlt' by lia.
      destruct (lookup_lt_is_Some_2 (loaded_entries this) (Z.to_nat index))
        as [e He].
      { rewrite loaded_entries_length by exact Hok. exact Hlt'. }
      rewrite (drop_S _ _ _ He).
      rewrite loaded_entries_lookup in He by exact Hlt'.
      rewrite (at_index_Some _ _ _ (proj1 Hi) He). cbn.
      destruct (String.eqb_spec (Texture.tag e) tag) as [Heq|Hne].
      * rewrite decide_True by exact Heq. cbn.
        rewrite while_loop_exit by (cbn; apply andb_false_r).
        now rewrite Z.add_0_r.
      * rewrite decide_False by exact Hne. cbn.
        rewrite IH by lia.
        replace (Z.to_nat (index + 1)) with (S (Z.to_nat index)) by lia.
        destruct (list_find _ _) as [[k e']|]; cbn; [|reflexivity].
        replace (index + Z.of_nat (S k)) with (index + 1 + Z.of_nat k) by lia.
        reflexivity.
    + assert (index = m_loadedTextures this) as -> by lia.
      rewrite drop_ge by (rewrite loaded_entries_length by exact Hok; lia).
      reflexivity.
Qed.
End TagScan.

Lemma FindTextureSlot_spec this tag :
  registry_ok this ->
  FindTextureSlot this tag
  = Done (match list_find (fun e => Texture.tag e = tag) (loaded_entries this) with
          | Some (k, _) => Z.of_nat k
          | None => -1
          end).
Proof.
  intros Hok. unfold FindTextureSlot.
  pose proof (scan_from this tag (fun index _ => index) Hok
                (Z.to_nat (m_loadedTextures this)) 0 (-1)) as Hscan.
  unfold scan_body in Hscan. rewrite Hscan by (destruct Hok; lia).
  cbn. destruct (list_find _ _) as [[k e]|]; reflexivity.
Qed.

Lemma FindTextureID_spec this tag :
  registry_ok this ->
  FindTextureID this tag
  = Done (match list_find (fun e => Texture.tag e = tag) (loaded_entries this) with
          | Some (_, e) => to_int32 (Texture.ID e)
          | None => -1
          end).
Proof.
  intros Hok. unfold FindTextureID.
  pose proof (scan_from this tag (fun _ e => to_int32 (Texture.ID e)) Hok
                (Z.to_nat (m_loadedTextures this)) 0 (-1)) as Hscan.
  unfold scan_body in Hscan. rewrite Hscan by (destruct Hok; lia).
  cbn. destruct (list_find _ _) as [[k e]|]; reflexivity.
Qed.

(** A tag carried by no entry in use is not found. *)
Lemma list_find_absent (tag : string) (entries : list TEXTURE_INFO) :
  tag ∉ map Texture.tag entries ->
  list_find (fun e => Texture.tag e = tag) entries = None.
Proof.
  intros Hnot. apply list_find_None, Forall_forall. intros e He Heq.
  apply Hnot. rewrite <- Heq. apply list_elem_of_In, in_map, list_elem_of_In, He.
Qed.

(** ** One call of [CreateGLTexture] *)

#[local] Arguments CreateGLTexture_register : simpl never.

Lemma channels_ok_cases img :
  channels_ok img = true -> colorChannels img = 3 \/ colorChannels img = 4.
Proof. unfold channels_ok. intros H. apply orb_true_iff in H. lia. Qed.

(** The registering tail: with the counter inside the array the entry at
    the counter is overwritten and the counter moves on; otherwise the
    write is outside the array. *)
Lemma CreateGLTexture_register_inside image textureID tag this env :
  0 <= m_loadedTextures this ->
  (Z.to_nat (m_loadedTextures this) < length (m_textureIDs this))%nat ->
  exists env',
    CreateGLTexture_register image textureID tag (this, env)
    = Done (true,
            (with_loadedTextures (m_loadedTextures this + 1)
               (with_textureIDs
                  (<[Z.to_nat (m_loadedTextures this) :=
                       {| Texture.tag := tag; Texture.ID := textureID |}]>
                     (m_textureIDs this)) this), env'))
    /\ files env' = files env /\ gl_names env' = gl_names env
    /\ gl_generated env' = gl_generated env
    /\ cout env' = cout env
    /\ stbi_live env' = filter (fun q => q ≠ image) (stbi_live env).
Proof.
  intros Hge Hlt.
  destruct (lookup_lt_is_Some_2 _ _ Hlt) as [e He].
  unfold CreateGLTexture_register, bind, gl, stbi_image_free, get_loadedTextures,
    set_texture_ID, set_texture_tag, incr_loadedTextures, ret.
  cbn. rewrite (at_index_Some _ _ _ Hge He). cbn.
  rewrite (at_index_Some _ _ {| Texture.tag := Texture.tag e; Texture.ID := textureID |} Hge)
    by (now apply list_lookup_insert_eq).
  cbn. rewrite list_insert_insert_eq.
  eexists. split; [reflexivity|]. cbn. auto.
Qed.

Lemma CreateGLTexture_register_outside image textureID tag this env :
  m_loadedTextures this < 0
  \/ Z.of_nat (length (m_textureIDs this)) <= m_loadedTextures this ->
  CreateGLTexture_register image textureID tag (this, env)
  = OutOfBounds (m_loadedTextures this).
Proof.
  intros Hout.
  unfold CreateGLTexture_register, bind, gl, stbi_image_free, get_loadedTextures,
    set_texture_ID.
  cbn. now rewrite (at_index_outside _ _ Hout).
Qed.

Lemma CreateGLTexture_loaded filename tag img this env :
  files env filename = Some img ->
  channels_ok img = true ->
  0 <= m_loadedTextures this ->
  (Z.to_nat (m_loadedTextures this) < length (m_textureIDs this))%nat ->
  exists env',
    CreateGLTexture filename tag (this, env)
    = Done (true,
            (with_loadedTextures (m_loadedTextures this + 1)
               (with_textureIDs
                  (<[Z.to_nat (m_loadedTextures this) :=
                       {| Texture.tag := tag;
                          Texture.ID := gl_names env (gl_generated env) |}]>
                     (m_textureIDs this)) this), env'))
    /\ files env' = files env /\ gl_names env' = gl_names env
    /\ gl_generated env' = S (gl_generated env).
Proof.
  intros Hfile Hch Hge Hlt.
  unfold CreateGLTexture, bind at 1 2. cbn. unfold stbi_load. rewrite Hfile. cbn.
  set (env1 := Build_Env _ _ _ _ _ _ _ _).
  destruct (channels_ok_cases img Hch) as [H3|H4].
  - rewrite H3. cbn.
    match goal with
    | |- context [CreateGLTexture_register ?i ?t ?g (this, ?e)] =>
      destruct (CreateGLTexture_register_inside i t g this e Hge Hlt)
        as (env' & -> & Hf & Hn & Hg & _)
    end.
    exists env'. cbn in *. auto.
  - rewrite H4. cbn.
    match goal with
    | |- context [CreateGLTexture_register ?i ?t ?g (this, ?e)] =>
      destruct (CreateGLTexture_register_inside i t g this e Hge Hlt)
        as (env' & -> & Hf & Hn & Hg & _)
    end.
    exists env'. cbn in *. auto.
Qed.

Lemma CreateGLTexture_overflow filename tag img this env :
  files env filename = Some img ->
  channels_ok img = true ->
  m_loadedTextures this < 0
  \/ Z.of_nat (length (m_textureIDs this)) <= m_loadedTextures this ->
  CreateGLTexture filename tag (this, env) = OutOfBounds (m_loadedTextures this).
Proof.
  intros Hfile Hch Hout.
  unfold CreateGLTexture, bind at 1 2. cbn. unfold stbi_load. rewrite Hfile. cbn.
  destruct (channels_ok_cases img Hch) as [H3|H4].
  - rewrite H3. cbn. now rewrite CreateGLTexture_register_outside.
  - rewrite H4. cbn. now rewrite CreateGLTexture_register_outside.
Qed.

Lemma CreateGLTexture_unsupported filename tag img this env :
  files env filename = Some img ->
  channels_ok img = false ->
  exists env',
    CreateGLTexture filename tag (this, env) = Done (false, (this, env'))
    /\ files env' = files env /\ gl_names env' = gl_names env
    /\ gl_generated env' = S (gl_generated env)
    /\ stbi_live env' = stbi_live env ++ [stbi_allocated env]
    /\ cout env'
       = cout env
         ++ ["Successfully loaded image:" +:+ filename
             +:+ ", width:" +:+ pretty (width img)
             +:+ ", height:" +:+ pretty (height img)
             +:+ ", channels:" +:+ pretty (colorChannels img);
             "Not implemented to handle image with "
             +:+ pretty (colorChannels img) +:+ " channels"].
Proof.
  intros Hfile Hch.
  unfold channels_ok in Hch. apply orb_false_iff in Hch as [H3 H4].
  unfold CreateGLTexture, bind at 1 2. cbn. unfold stbi_load. rewrite Hfile. cbn.
  rewrite H3, H4. cbn.
  eexists. split; [reflexivity|]. cbn. rewrite <- app_assoc. auto.
Qed.

Lemma CreateGLTexture_missing filename tag this env :
  files env filename = None ->
  exists env',
    CreateGLTexture filename tag (this, env) = Done (false, (this, env'))
    /\ files env' = files env /\ gl_names env' = gl_names env
    /\ gl_generated env' = gl_generated env
    /\ cout env' = cout env ++ ["Could not load image:" +:+ filename].
Proof.
  intros Hfile.
  unfold CreateGLTexture, bind at 1 2. cbn. unfold stbi_load. rewrite Hfile. cbn.
  eexists. split; [reflexivity|]. cbn. auto.
Qed.

(** ** Runs of [CreateGLTexture] calls *)

Lemma loaded_entries_push this (e : TEXTURE_INFO) :
  0 <= m_loadedTextures this ->
  (Z.to_nat (m_loadedTextures this) < length (m_textureIDs this))%nat ->
  loaded_entries
    (with_loadedTextures (m_loadedTextures this + 1)
       (with_textureIDs (<[Z.to_nat (m_loadedTextures this) := e]> (m_textureIDs this)) this))
  = loaded_entries this ++ [e].
Proof.
  intros Hge Hlt. unfold loaded_entries. cbn.
  replace (Z.to_nat (m_loadedTextures this + 1))
    with (S (Z.to_nat (m_loadedTextures this))) by lia.
  rewrite (take_S_r _ _ e) by (now apply list_lookup_insert_eq).
  now rewrite take_insert_ge by lia.
Qed.

(** While the array has room for them, a run registers exactly the
    entries of its successful calls, after those already there. *)
Lemma load_all_registers calls : forall this env,
  registry_ok this ->
  m_loadedTextures this
  + Z.of_nat (length (registered (files env) (gl_names env) (gl_generated env) calls))
  <= 16 ->
  exists this' env',
    load_all calls (this, env)
    = Done (map (fun c => succeeds (files env) (fst c)) calls, (this', env'))
    /\ registry_ok this'
    /\ loaded_entries this'
       = loaded_entries this
         ++ registered (files env) (gl_names env) (gl_generated env) calls
    /\ m_pShaderManager this' = m_pShaderManager this
    /\ m_objectMaterials this' = m_objectMaterials this
    /\ files env' = files env /\ gl_names env' = gl_names env.
Proof.
  induction calls as [|[filename tag] rest IH]; intros this env Hok Hroom.
  - exists this, env. cbn. rewrite app_nil_r. auto 10.
  - cbn [load_all registered map fst] in *. unfold succeeds at 1, bind at 1.
    destruct (files env filename) as [img|] eqn:Hfile.
    + destruct (channels_ok img) eqn:Hch.
      * cbn [length] in Hroom. destruct Hok as [Hlen Hn].
        assert (Z.to_nat (m_loadedTextures this) < length (m_textureIDs this))%nat
          as Hlt by lia.
        destruct (CreateGLTexture_loaded filename tag img this env Hfile Hch
                    (proj1 Hn) Hlt) as (env1 & -> & Hf & Hnm & Hg).
        cbn [obind]. set (this1 := with_loadedTextures _ _).
        assert (registry_ok this1) as Hok1.
        { split; cbn; [rewrite length_insert; exact Hlen | lia]. }
        destruct (IH this1 env1 Hok1) as (this' & env' & Hrun & Hok' & Hent & Hsh & Hmat & Hf' & Hn').
        { rewrite Hf, Hnm, Hg. cbn. lia. }
        unfold bind. rewrite Hrun. cbn [obind ret].
        exists this', env'. rewrite Hf. split; [reflexivity|].
        split; [exact Hok'|]. rewrite Hent, Hf, Hnm, Hg.
        unfold this1. rewrite loaded_entries_push by (lia || exact Hlt).
        rewrite <- app_assoc. cbn. rewrite Hf', Hn', Hf, Hnm. auto.
      * destruct (CreateGLTexture_unsupported filename tag img this env Hfile Hch)
          as (env1 & -> & Hf & Hnm & Hg & _).
        cbn [obind].
        destruct (IH this env1 Hok) as (this' & env' & Hrun & Hok' & Hent & Hsh & Hmat & Hf' & Hn').
        { now rewrite Hf, Hnm, Hg. }
        unfold bind. rewrite Hrun. cbn [obind ret].
        exists this', env'. rewrite Hf. split; [reflexivity|].
        rewrite Hent, Hf, Hnm, Hg, Hf', Hn'. auto 10.
    + destruct (CreateGLTexture_missing filename tag this env Hfile)
        as (env1 & -> & Hf & Hnm & Hg & _).
      cbn [obind].
      destruct (IH this env1 Hok) as (this' & env' & Hrun & Hok' & Hent & Hsh & Hmat & Hf' & Hn').
      { now rewrite Hf, Hnm, Hg. }
      unfold bind. rewrite Hrun. cbn [obind ret].
      exists this', env'. rewrite Hf. split; [reflexivity|].
      rewrite Hent, Hf, Hnm, Hg, Hf', Hn'. auto 10.
Qed.

(** A run with more successful calls than the array has free entries
    runs off the array at index 16. *)
Lemma load_all_overflow calls : forall this env,
  registry_ok this ->
  16 < m_loadedTextures this
       + Z.of_nat (length (registered (files env) (gl_names env) (gl_generated env) calls)) ->
  load_all calls (this, env) = OutOfBounds 16.
Proof.
  induction calls as [|[filename tag] rest IH]; intros this env Hok Hover.
  - destruct Hok as [_ Hn]. cbn in Hover. lia.
  - cbn [load_all registered] in *. unfold bind at 1.
    destruct (files env filename) as [img|] eqn:Hfile.
    + destruct (channels_ok img) eqn:Hch.
      * cbn [length] in Hover. destruct Hok as [Hlen Hn].
        destruct (Z.eq_dec (m_loadedTextures this) 16) as [Hfull|Hroom].
        -- rewrite (CreateGLTexture_overflow filename tag img this env Hfile Hch)
             by lia.
           cbn. now rewrite Hfull.
        -- assert (Z.to_nat (m_loadedTextures this) < length (m_textureIDs this))%nat
             as Hlt by lia.
           destruct (CreateGLTexture_loaded filename tag img this env Hfile Hch
                       (proj1 Hn) Hlt) as (env1 & -> & Hf & Hnm & Hg).
           cbn [obind]. unfold bind. rewrite IH; [reflexivity| |].
           ++ split; cbn; [rewrite length_insert; exact Hlen | lia].
           ++ rewrite Hf, Hnm, Hg. cbn. lia.
      * destruct (CreateGLTexture_unsupported filename tag img this env Hfile Hch)
          as (env1 & -> & Hf & Hnm & Hg & _).
        cbn [obind]. unfold bind. rewrite IH; [reflexivity|exact Hok|].
        now rewrite Hf, Hnm, Hg.
    + destruct (CreateGLTexture_missing filename tag this env Hfile)
        as (env1 & -> & Hf & Hnm & Hg & _).
      cbn [obind]. unfold bind. rewrite IH; [reflexivity|exact Hok|].
      now rewrite Hf, Hnm, Hg.
Qed.

(** The registry stays in order under every call that returns. *)
Lemma CreateGLTexture_keeps_ok filename tag this env b this' env' :
  registry_ok this ->
  CreateGLTexture filename tag (this, env) = Done (b, (this', env')) ->
  registry_ok this'.
Proof.
  intros [Hlen Hn] Hrun.
  destruct (files env filename) as [img|] eqn:Hfile.
  - destruct (channels_ok img) eqn:Hch.
    + destruct (Z.eq_dec (m_loadedTextures this) 16) as [Hfull|Hroom].
      * rewrite (CreateGLTexture_overflow filename tag img this env Hfile Hch) in Hrun
          by lia.
        discriminate.
      * destruct (CreateGLTexture_loaded filename tag img this env Hfile Hch)
          as (env1 & Hrun1 & _); [lia | lia |].
        rewrite Hrun1 in Hrun. injection Hrun as _ <- _.
        split; cbn; [rewrite length_insert; exact Hlen | lia].
    + destruct (CreateGLTexture_unsupported filename tag img this env Hfile Hch)
        as (env1 & Hrun1 & _).
      rewrite Hrun1 in Hrun. injection Hrun as _ <- _. now split.
  - destruct (CreateGLTexture_missing filename tag this env Hfile)
      as (env1 & Hrun1 & _).
    rewrite Hrun1 in Hrun. injection Hrun as _ <- _. now split.
Qed.

Lemma DefineObjectMaterials_keeps_ok this :
  registry_ok this -> registry_ok (DefineObjectMaterials this).
Proof. intros Hok. exact Hok. Qed.

Lemma SceneManager_new_ok p : registry_ok (SceneManager_new p).
Proof. split; cbn; [reflexivity | lia]. Qed.

Lemma SceneManager_new_entries p : loaded_entries (SceneManager_new p) = [].
Proof. reflexivity. Qed.

(** ** [BindGLTextures] *)

Lemma with_gl_same env : with_gl (gl_generated env) (gl_calls env) env = env.
Proof. now destruct env. Qed.

Lemma BindGLTextures_body_spec this env0 (i : Z) gen calls (e : TEXTURE_INFO) :
  0 <= i ->
  m_textureIDs this !! Z.to_nat i = Some e ->
  BindGLTextures_body i (this, with_gl gen calls env0)
  = Done (tt, (this, with_gl gen
                       ((calls ++ [glActiveTexture (GL_TEXTURE0 + i)])
                          ++ [glBindTexture GL_TEXTURE_2D (Texture.ID e)]) env0)).
Proof.
  intros Hge He. unfold BindGLTextures_body, bind, gl, query. cbn.
  now rewrite (at_index_Some _ _ _ Hge He).
Qed.

Lemma BindGLTextures_loop this env0 (fuel : nat) : forall (i : Z) gen calls,
  registry_ok this ->
  0 <= i <= m_loadedTextures this ->
  (Z.to_nat (m_loadedTextures this - i) <= fuel)%nat ->
  while_loop fuel
    (fun '(i, st) => i <? m_loadedTextures (fst st))
    (fun '(i, st) =>
       obind (BindGLTextures_body i st) (fun '(_, st') => Done (i + 1, st')))
    (i, (this, with_gl gen calls env0))
  = Done (m_loadedTextures this,
          (this, with_gl gen
                   (calls ++ bind_calls i (drop (Z.to_nat i) (loaded_entries this)))
                   env0)).
Proof.
  induction fuel as [|fuel IH]; intros i gen calls Hok Hi Hfuel.
  - assert (i = m_loadedTextures this) as -> by lia.
    rewrite while_loop_exit by (cbn; apply Z.ltb_irrefl).
    rewrite drop_ge by (rewrite loaded_entries_length by exact Hok; lia).
    cbn. now rewrite app_nil_r.
  - destruct (Z.ltb_spec i (m_loadedTextures this)) as [Hlt|Hge].
    + rewrite while_loop_step by (cbn; now apply Z.ltb_lt).
      assert (Z.to_nat i < Z.to_nat (m_loadedTextures this))%nat as Hlt' by lia.
      destruct (lookup_lt_is_Some_2 (loaded_entries this) (Z.to_nat i)) as [e He].
      { rewrite loaded_entries_length by exact Hok. exact Hlt'. }
      rewrite (drop_S _ _ _ He).
      rewrite loaded_entries_lookup in He by exact Hlt'.
      cbv beta iota.
      rewrite (BindGLTextures_body_spec _ _ _ _ _ e (proj1 Hi) He).
      cbn [obind]. rewrite IH by (exact Hok || lia).
      replace (Z.to_nat (i + 1)) with (S (Z.to_nat i)) by lia.
      cbn [bind_calls]. now rewrite <- !app_assoc.
    + assert (i = m_loadedTextures this) as -> by lia.
      rewrite while_loop_exit by (cbn; apply Z.ltb_irrefl).
      rewrite drop_ge by (rewrite loaded_entries_length by exact Hok; lia).
      cbn. now rewrite app_nil_r.
Qed.

(** On a registry in order, [BindGLTextures] issues the unit selection
    and the bind for each entry in use, in load order, and nothing else. *)
Lemma BindGLTextures_spec this env :
  registry_ok this ->
  BindGLTextures (this, env)
  = Done (tt, (this, with_gl (gl_generated env)
                       (gl_calls env ++ bind_calls 0 (loaded_entries this)) env)).
Proof.
  intros Hok. unfold BindGLTextures, for_loadedTextures. cbn [fst].
  rewrite <- (with_gl_same env) at 1.
  rewrite BindGLTextures_loop by (exact Hok || (destruct Hok; lia)).
  reflexivity.
Qed.

(** ** [DestroyGLTextures] *)

Lemma DestroyGLTextures_body_spec this env0 (i : Z) gen calls (e : TEXTURE_INFO) :
  0 <= i ->
  m_textureIDs this !! Z.to_nat i = Some e ->
  DestroyGLTextures_body i (this, with_gl gen calls env0)
  = Done (tt,
          (with_textureIDs
             (<[Z.to_nat i := {| Texture.tag := Texture.tag e;
                                 Texture.ID := gl_names env0 gen |}]>
                (m_textureIDs this)) this,
           with_gl (S gen) (calls ++ [glGenTextures (gl_names env0 gen)]) env0)).
Proof.
  intros Hge He. unfold DestroyGLTextures_body, bind, glGenTextures1, set_texture_ID.
  cbn. now rewrite (at_index_Some _ _ _ Hge He).
Qed.

Lemma DestroyGLTextures_loop env0 (n : Z) (fuel : nat) : forall this (i : Z) gen calls,
  length (m_textureIDs this) = 16%nat ->
  m_loadedTextures this = n ->
  0 <= i <= n -> n <= 16 ->
  (Z.to_nat (n - i) <= fuel)%nat ->
  exists this',
    while_loop fuel
      (fun '(i, st) => i <? m_loadedTextures (fst st))
      (fun '(i, st) =>
         obind (DestroyGLTextures_body i st) (fun '(_, st') => Done (i + 1, st')))
      (i, (this, with_gl gen calls env0))
    = Done (n,
            (this',
             with_gl (gen + Z.to_nat (n - i))
               (calls ++ map (fun k => glGenTextures (gl_names env0 k))
                           (seq gen (Z.to_nat (n - i))))
               env0))
    /\ length (m_textureIDs this') = 16%nat
    /\ m_loadedTextures this' = n
    /\ map Texture.tag (m_textureIDs this') = map Texture.tag (m_textureIDs this).
Proof.
  induction fuel as [|fuel IH]; intros this i gen calls Hlen Hn Hi Hcap Hfuel.
  - assert (i = n) as -> by lia.
    rewrite while_loop_exit by (cbn; rewrite Hn; apply Z.ltb_irrefl).
    exists this. rewrite Z.sub_diag. cbn. rewrite app_nil_r, Nat.add_0_r. auto.
  - destruct (Z.ltb_spec i n) as [Hlt|Hge].
    + rewrite while_loop_step by (cbn; rewrite Hn; now apply Z.ltb_lt).
      destruct (lookup_lt_is_Some_2 (m_textureIDs this) (Z.to_nat i)) as [e He];
        [lia|].
      cbv beta iota.
      rewrite (DestroyGLTextures_body_spec _ _ _ _ _ e (proj1 Hi) He).
      cbn [obind]. set (this1 := with_textureIDs _ this).
      destruct (IH this1 (i + 1) (S gen)
                  (calls ++ [glGenTextures (gl_names env0 gen)]))
        as (this' & Hrun & Hlen' & Hn' & Htags); try lia.
      { unfold this1. cbn. now rewrite length_insert. }
      { exact Hn. }
      exists this'. rewrite Hrun.
      replace (Z.to_nat (n - i)) with (S (Z.to_nat (n - (i + 1)))) by lia.
      cbn [seq map]. rewrite <- app_assoc. cbn [app].
      replace (S gen + Z.to_nat (n - (i + 1)))%nat
        with (gen + S (Z.to_nat (n - (i + 1))))%nat by lia.
      split; [reflexivity|]. split; [exact Hlen'|]. split; [exact Hn'|].
      rewrite Htags. unfold this1. cbn.
      rewrite list_fmap_insert. cbn.
      apply list_insert_id. rewrite list_lookup_fmap, He. reflexivity.
    + assert (i = n) as -> by lia.
      rewrite while_loop_exit by (cbn; rewrite Hn; apply Z.ltb_irrefl).
      exists this. rewrite Z.sub_diag. cbn. rewrite app_nil_r, Nat.add_0_r. auto.
Qed.

(** On a registry in order, [DestroyGLTextures] asks the driver for one
    new texture name per entry in use and makes no other GL call. *)
Lemma DestroyGLTextures_calls this env :
  registry_ok this ->
  exists this',
    DestroyGLTextures (this, env)
    = Done (tt,
            (this',
             with_gl (gl_generated env + Z.to_nat (m_loadedTextures this))
               (gl_calls env
                  ++ map (fun k => glGenTextures (gl_names env k))
                       (seq (gl_generated env) (Z.to_nat (m_loadedTextures this))))
               env))
    /\ registry_ok this'
    /\ m_loadedTextures this' = m_loadedTextures this.
Proof.
  intros [Hlen Hn]. unfold DestroyGLTextures, for_loadedTextures. cbn [fst].
  destruct (DestroyGLTextures_loop env (m_loadedTextures this)
              (Z.to_nat (m_loadedTextures this)) this 0
              (gl_generated env) (gl_calls env) Hlen eq_refl)
    as (this' & Hrun & Hlen' & Hn' & _); try lia.
  rewrite with_gl_same, Z.sub_0_r in Hrun.
  exists this'. rewrite Hrun. cbn [obind].
  split; [reflexivity|]. split; [|exact Hn'].
  split; [exact Hlen' | lia].
Qed.

(** ** The material scan *)

Lemma FindMaterial_scan this tag (fuel : nat) : forall (index : Z) material,
  0 <= index <= Z.of_nat (length (m_objectMaterials this)) ->
  (length (m_objectMaterials this) - Z.to_nat index <= fuel)%nat ->
  while_loop fuel (FindMaterial_cond this) (FindMaterial_body this tag)
    (index, false, material)
  = Done (match list_find (fun e => Material.tag e = tag)
                  (drop (Z.to_nat index) (m_objectMaterials this)) with
          | Some (k, e) => (index + Z.of_nat k, true, assign_fields material e)
          | None => (Z.of_nat (length (m_objectMaterials this)), false, material)
          end).
Proof.
  induction fuel as [|fuel IH]; intros index material Hi Hfuel.
  - assert (index = Z.of_nat (length (m_objectMaterials this))) as -> by lia.
    rewrite while_loop_exit by (cbn; now rewrite Z.ltb_irrefl).
    rewrite drop_ge by lia. reflexivity.
  - destruct (Z.ltb_spec index (Z.of_nat (length (m_objectMaterials this))))
      as [Hlt|Hge].
    + rewrite while_loop_step
        by (cbn; apply andb_true_iff; split; [now apply Z.ltb_lt | reflexivity]).
      destruct (lookup_lt_is_Some_2 (m_objectMaterials this) (Z.to_nat index))
        as [e He]; [lia|].
      rewrite (drop_S _ _ _ He). cbn [FindMaterial_body].
      rewrite (at_index_Some _ _ _ (proj1 Hi) He). cbn [obind list_find].
      destruct (String.eqb_spec (Material.tag e) tag) as [Heq|Hne].
      * rewrite decide_True by exact Heq. cbn [obind].
        rewrite while_loop_exit by (cbn; apply andb_false_r).
        now rewrite Z.add_0_r.
      * rewrite decide_False by exact Hne. cbn [obind].
        rewrite IH by lia.
        replace (Z.to_nat (index + 1)) with (S (Z.to_nat index)) by lia.
        destruct (list_find _ _) as [[k e']|]; cbn; [|reflexivity].
        replace (index + Z.of_nat (S k)) with (index + 1 + Z.of_nat k) by lia.
        reflexivity.
    + assert (index = Z.of_nat (length (m_objectMaterials this))) as -> by lia.
      rewrite while_loop_exit by (cbn; now rewrite Z.ltb_irrefl).
      rewrite drop_ge by lia. reflexivity.
Qed.

(** [FindMaterial] returns false on an empty registry and true on every
    other; [material] receives the fields of the first entry carrying the
    tag and is left as it was when there is none. *)
Lemma FindMaterial_spec this tag material :
  FindMaterial this tag material
  = Done (negb (Z.of_nat (length (m_objectMaterials this)) =? 0),
          match list_find (fun e => Material.tag e = tag) (m_objectMaterials this) with
          | Some (_, e) => assign_fields material e
          | None => material
          end).
Proof.
  unfold FindMaterial.
  destruct (Z.eqb_spec (Z.of_nat (length (m_objectMaterials this))) 0) as [Hz|Hnz].
  - destruct (m_objectMaterials this); [reflexivity | discriminate].
  - rewrite FindMaterial_scan by lia. cbn.
    destruct (list_find _ _) as [[k e]|]; reflexivity.
Qed.

Lemma material_absent (tag : string) (materials : list OBJECT_MATERIAL) :
  tag ∉ map Material.tag materials ->
  list_find (fun e => Material.tag e = tag) materials = None.
Proof.
  intros Hnot. apply list_find_None, Forall_forall. intros e He Heq.
  apply Hnot. rewrite <- Heq. apply list_elem_of_In, in_map, list_elem_of_In, He.
Qed.

(** ** Shader set-up *)

Lemma SetShaderMaterial_pass_spec material this env calls :
  m_pShaderManager this = Some calls ->
  SetShaderMaterial_pass material (this, env)
  = Done (tt, (with_shader (Some (calls ++ material_calls material)) this, env)).
Proof.
  intros Hsh. unfold SetShaderMaterial_pass, bind, shader. cbn.
  rewrite Hsh. cbn. now rewrite <- !app_assoc.
Qed.

(** With a shader manager attached and a registry that is not empty,
    [SetShaderMaterial] always passes five values on: those of the first
    entry carrying the tag, or, when there is none, whatever the
    uninitialised local holds. *)
Lemma SetShaderMaterial_spec materialTag material this env calls :
  m_pShaderManager this = Some calls ->
  m_objectMaterials this <> [] ->
  SetShaderMaterial materialTag material (this, env)
  = Done (tt,
          (with_shader
             (Some (calls ++ material_calls
                      match list_find (fun e => Material.tag e = materialTag)
                              (m_objectMaterials this) with
                      | Some (_, e) => assign_fields material e
                      | None => material
                      end)) this, env)).
Proof.
  intros Hsh Hne. unfold SetShaderMaterial. cbn [fst].
  destruct (m_objectMaterials this) as [|m0 ms] eqn:Hms; [congruence|].
  cbn [length]. destruct (Z.gtb_spec (Z.of_nat (S (length ms))) 0) as [_|Hle]; [|lia].
  unfold bind, query. cbn [fst]. rewrite FindMaterial_spec, Hms. cbn [obind].
  cbn [length]. destruct (Z.eqb_spec (Z.of_nat (S (length ms))) 0) as [Hz|_]; [lia|].
  cbn [negb]. now apply SetShaderMaterial_pass_spec.
Qed.

Lemma SetShaderMaterial_empty materialTag material this env :
  m_objectMaterials this = [] ->
  SetShaderMaterial materialTag material (this, env) = Done (tt, (this, env)).
Proof. intros Hms. unfold SetShaderMaterial. cbn [fst]. now rewrite Hms. Qed.

Lemma SetShaderTexture_spec textureTag this env calls :
  registry_ok this ->
  m_pShaderManager this = Some calls ->
  SetShaderTexture textureTag (this, env)
  = Done (tt,
          (with_shader
             (Some (calls ++ [setIntValue g_UseTextureName 1;
                              setSampler2DValue g_TextureValueName
                                match list_find (fun e => Texture.tag e = textureTag)
                                        (loaded_entries this) with
                                | Some (k, _) => Z.of_nat k
                                | None => -1
                                end])) this, env)).
Proof.
  intros Hok Hsh. unfold SetShaderTexture. cbn [fst]. rewrite Hsh.
  unfold bind, shader, query. rewrite Hsh. cbn [obind fst].
  rewrite FindTextureSlot_spec by exact Hok. cbn.
  now rewrite <- app_assoc.
Qed.

Lemma SetShaderTexture_detached textureTag this env :
  m_pShaderManager this = None ->
  SetShaderTexture textureTag (this, env) = Done (tt, (this, env)).
Proof. intros Hsh. unfold SetShaderTexture. cbn [fst]. now rewrite Hsh. Qed.

(** ** What a run registers *)

Lemma registered_length files names calls : forall k,
  length (registered files names k calls)
  = length (filter (fun c => succeeds files (fst c) = true) calls).
Proof.
  induction calls as [|[filename tag] rest IH]; intros k; [reflexivity|].
  cbn [registered]. rewrite filter_cons. cbn [fst].
  destruct (files filename) as [img|] eqn:Hfile.
  - destruct (channels_ok img) eqn:Hch.
    + rewrite decide_True by (unfold succeeds; now rewrite Hfile).
      cbn. now rewrite IH.
    + rewrite decide_False by (unfold succeeds; rewrite Hfile, Hch; discriminate).
      apply IH.
  - rewrite decide_False by (unfold succeeds; rewrite Hfile; discriminate).
    apply IH.
Qed.

Lemma registered_tag files names calls (tag : string) : forall k,
  tag ∈ map Texture.tag (registered files names k calls) ->
  exists filename, (filename, tag) ∈ calls /\ succeeds files filename = true.
Proof.
  induction calls as [|[filename tag'] rest IH]; intros k Hin.
  - cbn in Hin. now apply elem_of_nil in Hin.
  - cbn [registered] in Hin.
    assert (forall k', tag ∈ map Texture.tag (registered files names k' rest) ->
            exists f, (f, tag) ∈ (filename, tag') :: rest
                      /\ succeeds files f = true) as Hrest.
    { intros k' H. destruct (IH k' H) as (f & Hf & Hs).
      exists f. split; [now apply list_elem_of_further | exact Hs]. }
    destruct (files filename) as [img|] eqn:Hfile; [|now apply (Hrest k)].
    destruct (channels_ok img) eqn:Hch; [|now apply (Hrest (S k))].
    cbn in Hin. apply elem_of_cons in Hin as [->|Hin]; [|now apply (Hrest (S k))].
    exists filename. split; [apply list_elem_of_here|].
    unfold succeeds. now rewrite Hfile.
Qed.

Lemma bind_calls_lookup entries : forall (i : nat) (start : Z) (e : TEXTURE_INFO),
  entries !! i = Some e ->
  bind_calls start entries !! (2 * i)%nat
  = Some (glActiveTexture (GL_TEXTURE0 + (start + Z.of_nat i)))
  /\ bind_calls start entries !! (2 * i + 1)%nat
     = Some (glBindTexture GL_TEXTURE_2D (Texture.ID e)).
Proof.
  induction entries as [|e0 rest IH]; intros i start e He; [discriminate|].
  destruct i as [|i].
  - cbn in He. injection He as ->. cbn. now rewrite Z.add_0_r.
  - cbn in He. destruct (IH i (start + 1) e He) as [Ha Hb].
    replace (2 * S i)%nat with (S (S (2 * i))) by lia.
    cbn [bind_calls Nat.add]. cbn [lookup list_lookup]. 
    replace (start + Z.of_nat (S i)) with (start + 1 + Z.of_nat i) by lia.
    split; [exact Ha|].
    replace (S (S (2 * i)) + 1)%nat with (S (S (2 * i + 1))) by lia.
    exact Hb.
Qed.

Lemma bind_calls_length entries : forall start,
  length (bind_calls start entries) = (2 * length entries)%nat.
Proof.
  induction entries as [|e rest IH]; intros start; [reflexivity|].
  cbn [bind_calls length]. rewrite IH. lia.
Qed.

(** * The material registry as the scene defines it *)

(** C1.  [DefineObjectMaterials] on an empty registry leaves exactly one
    entry, tagged "metal": the wood material is filled in and never
    pushed.  [FindMaterial] then returns true for "wood" and for "plastic"
    alike and hands back [material] as it received it, so neither are the
    wood values (2.0 and 4.0) returned nor does the "plastic" lookup
    fail. *)
Theorem DefineObjectMaterials_then_FindMaterial (this : SceneManager)
    (material : OBJECT_MATERIAL) :
  let scene := DefineObjectMaterials (with_objectMaterials [] this) in
  map Material.tag (m_objectMaterials scene) = ["metal"%string]
  /\ FindMaterial scene "wood" material = Done (true, material)
  /\ FindMaterial scene "plastic" material = Done (true, material)
  /\ FindMaterial scene "wood" stale_material
     <> Done (true, {| Material.ambientColor := Vec3 0.1 0.1 0.1;
                       Material.ambientStrength := 2.0;
                       Material.diffuseColor := Vec3 0.3 0.3 0.3;
                       Material.specularColor := Vec3 0.1 0.1 0.1;
                       Material.shininess := 4.0;
                       Material.tag := "" |}).
Proof.
  cbv zeta. repeat split; try reflexivity.
  rewrite FindMaterial_spec. cbn. discriminate.
Qed.

(** C2.  On a registry that is not empty, a tag carried by no entry makes
    [FindMaterial] return true, not false, with [material] untouched. *)
Theorem FindMaterial_unmatched (this : SceneManager) (tag : string)
    (material : OBJECT_MATERIAL) :
  m_objectMaterials this <> [] ->
  tag ∉ map Material.tag (m_objectMaterials this) ->
  FindMaterial this tag material = Done (true, material).
Proof.
  intros Hne Hnot. rewrite FindMaterial_spec, (material_absent _ _ Hnot).
  destruct (m_objectMaterials this); [congruence | reflexivity].
Qed.

Lemma FindMaterial_unmatched_witness :
  FindMaterial (DefineObjectMaterials (SceneManager_new None)) "wood" stale_material
  = Done (true, stale_material).
Proof.
  apply (FindMaterial_unmatched
           (DefineObjectMaterials (SceneManager_new None)) "wood" stale_material).
  - discriminate.
  - cbn. intros Hin. apply list_elem_of_singleton in Hin. discriminate.
Defined.

(** C3.  With a shader manager attached and a registry that is not
    empty, [SetShaderMaterial] on a tag carried by no entry is not a
    no-op: it passes on the five fields of its uninitialised local. *)
Theorem SetShaderMaterial_unmatched (materialTag : string)
    (material : OBJECT_MATERIAL) (this : SceneManager) (env : Env)
    (calls : ShaderManager) :
  m_pShaderManager this = Some calls ->
  m_objectMaterials this <> [] ->
  materialTag ∉ map Material.tag (m_objectMaterials this) ->
  SetShaderMaterial materialTag material (this, env)
  = Done (tt, (with_shader (Some (calls ++ material_calls material)) this, env)).
Proof.
  intros Hsh Hne Hnot.
  rewrite (SetShaderMaterial_spec _ _ _ _ calls Hsh Hne).
  now rewrite (material_absent _ _ Hnot).
Qed.

Lemma SetShaderMaterial_unmatched_witness :
  SetShaderMaterial "wood" stale_material
    (DefineObjectMaterials (SceneManager_new (Some [])), example_env)
  = Done (tt,
          (with_shader
             (Some [setVec3Value "material.ambientColor" (Vec3 7.0 7.0 7.0);
                    setFloatValue "material.ambientStrength" 7.0;
                    setVec3Value "material.diffuseColor" (Vec3 7.0 7.0 7.0);
                    setVec3Value "material.specularColor" (Vec3 7.0 7.0 7.0);
                    setFloatValue "material.shininess" 7.0])
             (DefineObjectMaterials (SceneManager_new (Some []))), example_env)).
Proof.
  apply (SetShaderMaterial_unmatched "wood" stale_material
           (DefineObjectMaterials (SceneManager_new (Some []))) example_env []).
  - reflexivity.
  - discriminate.
  - cbn. intros Hin. apply list_elem_of_singleton in Hin. discriminate.
Defined.

(** * The texture registry *)

Example one_texture_reached :
  CreateGLTexture "textures/wood.jpg" "wood" (SceneManager_new (Some []), example_env)
  = Done (true, (one_texture, one_texture_env)).
Proof. vm_compute. reflexivity. Qed.

(** C4.  On a registry in order, [DestroyGLTextures] returns after
    asking the driver for one new texture name per entry in use; the GL
    calls it adds are those [glGenTextures] calls and nothing else, so no
    [glDeleteTextures] is among them and no texture is released.  With no
    entry in use it adds no call. *)
Theorem DestroyGLTextures_generates (this : SceneManager) (env : Env) :
  registry_ok this ->
  exists this' env' added,
    DestroyGLTextures (this, env) = Done (tt, (this', env'))
    /\ gl_calls env' = gl_calls env ++ added
    /\ added = map (fun k => glGenTextures (gl_names env k))
                 (seq (gl_generated env) (Z.to_nat (m_loadedTextures this)))
    /\ (forall name, glDeleteTextures name ∉ added)
    /\ (m_loadedTextures this = 0 -> added = []).
Proof.
  intros Hok.
  destruct (DestroyGLTextures_calls this env Hok) as (this' & Hrun & _ & _).
  eexists this', _, _. split; [exact Hrun|].
  split; [reflexivity|]. split; [reflexivity|]. split.
  - intros name Hin. apply list_elem_of_fmap in Hin as (k & Hk & _). discriminate.
  - intros ->. reflexivity.
Qed.

Lemma DestroyGLTextures_generates_witness :
  exists this' env',
    DestroyGLTextures (one_texture, one_texture_env) = Done (tt, (this', env'))
    /\ gl_calls env' = gl_calls one_texture_env ++ [glGenTextures 2].
Proof.
  destruct (DestroyGLTextures_generates one_texture one_texture_env)
    as (this' & env' & added & Hrun & Hcalls & Hadded & _).
  - split; [reflexivity | cbn; lia].
  - exists this', env'. split; [exact Hrun|].
    rewrite Hcalls, Hadded. reflexivity.
Defined.

(** C6.  When the file decodes to an image whose channel count is
    neither 3 nor 4, [CreateGLTexture] returns false and leaves the object
    (texture entries and counter included) as it was; it writes the "Not
    implemented" line after the "Successfully loaded" line, and the buffer
    the decoder handed out is still live when the call returns. *)
Theorem CreateGLTexture_unsupported_channels (filename tag : string)
    (img : Image) (this : SceneManager) (env : Env) :
  files env filename = Some img ->
  colorChannels img <> 3 ->
  colorChannels img <> 4 ->
  exists env',
    CreateGLTexture filename tag (this, env) = Done (false, (this, env'))
    /\ cout env'
       = cout env
         ++ ["Successfully loaded image:" +:+ filename
             +:+ ", width:" +:+ pretty (width img)
             +:+ ", height:" +:+ pretty (height img)
             +:+ ", channels:" +:+ pretty (colorChannels img);
             "Not implemented to handle image with "
             +:+ pretty (colorChannels img) +:+ " channels"]
    /\ stbi_live env' = stbi_live env ++ [stbi_allocated env]
    /\ stbi_allocated env ∈ stbi_live env'.
Proof.
  intros Hfile H3 H4.
  assert (channels_ok img = false) as Hch.
  { unfold channels_ok. apply orb_false_iff. lia. }
  destruct (CreateGLTexture_unsupported filename tag img this env Hfile Hch)
    as (env' & Hrun & _ & _ & _ & Hlive & Hcout).
  exists env'. split; [exact Hrun|]. split; [exact Hcout|]. split; [exact Hlive|].
  rewrite Hlive. apply elem_of_app. right. apply list_elem_of_here.
Qed.

Lemma CreateGLTexture_unsupported_channels_witness :
  exists env',
    CreateGLTexture "textures/grey.png" "grey" (SceneManager_new None, example_env)
    = Done (false, (SceneManager_new None, env'))
    /\ cout env'
       = ["Successfully loaded image:textures/grey.png, width:8, height:8, channels:1";
          "Not implemented to handle image with 1 channels"]%string
    /\ stbi_live env' = [0%nat]
    /\ 0%nat ∈ stbi_live env'.
Proof.
  apply (CreateGLTexture_unsupported_channels "textures/grey.png" "grey"
           {| width := 8; height := 8; colorChannels := 1 |}
           (SceneManager_new None) example_env).
  - reflexivity.
  - cbn. lia.
  - cbn. lia.
Defined.

(** C7.  A successful load never compares the counter with 16: with the
    counter inside the array the entry at index [m_loadedTextures] is
    overwritten and the counter moves on; with the counter at 16 (or
    anywhere else outside) the write goes outside the array.  From the
    constructor, any run with more than 16 successful loads runs off the
    array at index 16. *)
Theorem CreateGLTexture_no_capacity_check (filename tag : string) (img : Image)
    (this : SceneManager) (env : Env) :
  files env filename = Some img ->
  channels_ok img = true ->
  length (m_textureIDs this) = 16%nat ->
  (0 <= m_loadedTextures this < 16 ->
   exists env',
     CreateGLTexture filename tag (this, env)
     = Done (true,
             (with_loadedTextures (m_loadedTextures this + 1)
                (with_textureIDs
                   (<[Z.to_nat (m_loadedTextures this) :=
                        {| Texture.tag := tag;
                           Texture.ID := gl_names env (gl_generated env) |}]>
                      (m_textureIDs this)) this), env')))
  /\ (m_loadedTextures this < 0 \/ 16 <= m_loadedTextures this ->
      CreateGLTexture filename tag (this, env) = OutOfBounds (m_loadedTextures this))
  /\ (forall p calls,
        (16 < length (filter (fun c => succeeds (files env) (fst c) = true) calls))%nat ->
        load_all calls (SceneManager_new p, env) = OutOfBounds 16).
Proof.
  intros Hfile Hch Hlen. split; [|split].
  - intros Hn.
    destruct (CreateGLTexture_loaded filename tag img this env Hfile Hch)
      as (env' & Hrun & _); [lia | lia |].
    now exists env'.
  - intros Hout. apply (CreateGLTexture_overflow filename tag img); auto.
    rewrite Hlen. lia.
  - intros p calls Hmany. apply load_all_overflow; [apply SceneManager_new_ok|].
    rewrite registered_length. cbn. lia.
Qed.

Lemma CreateGLTexture_no_capacity_check_witness :
  load_all (replicate 17 ("textures/wood.jpg", "wood")%string)
    (SceneManager_new None, example_env)
  = OutOfBounds 16.
Proof.
  refine (proj2 (proj2 (CreateGLTexture_no_capacity_check
            "textures/wood.jpg" "wood"
            {| width := 512; height := 512; colorChannels := 3 |}
            (SceneManager_new None) example_env _ _ _)) None _ _).
  - reflexivity.
  - reflexivity.
  - reflexivity.
  - vm_compute. lia.
Defined.

(** C8.  From the constructor, a run of calls of which at most 16
    succeed returns with the entries in use being exactly the successful
    calls' tags and generated handles, in call order.  [BindGLTextures]
    then adds, for the i-th of them, the selection of unit GL_TEXTURE0 + i
    followed by the bind of its handle, in order and nothing else; and
    [FindTextureSlot] on the i-th entry's tag returns the least index
    carrying that tag, which is i when no earlier entry carries it. *)
Theorem BindGLTextures_after_loads (p : option ShaderManager) (env : Env)
    (calls : list (string * string)) :
  let entries := registered (files env) (gl_names env) (gl_generated env) calls in
  (length entries <= 16)%nat ->
  exists this' env',
    load_all calls (SceneManager_new p, env)
    = Done (map (fun c => succeeds (files env) (fst c)) calls, (this', env'))
    /\ m_loadedTextures this' = Z.of_nat (length entries)
    /\ loaded_entries this' = entries
    /\ BindGLTextures (this', env')
       = Done (tt, (this', with_gl (gl_generated env')
                             (gl_calls env' ++ bind_calls 0 entries) env'))
    /\ length (bind_calls 0 entries) = (2 * length entries)%nat
    /\ forall (i : nat) (e : TEXTURE_INFO),
         entries !! i = Some e ->
         bind_calls 0 entries !! (2 * i)%nat
         = Some (glActiveTexture (GL_TEXTURE0 + Z.of_nat i))
         /\ bind_calls 0 entries !! (2 * i + 1)%nat
            = Some (glBindTexture GL_TEXTURE_2D (Texture.ID e))
         /\ exists (j : nat) (e' : TEXTURE_INFO),
              FindTextureSlot this' (Texture.tag e) = Done (Z.of_nat j)
              /\ (j <= i)%nat
              /\ entries !! j = Some e' /\ Texture.tag e' = Texture.tag e
              /\ (forall (k : nat) (e'' : TEXTURE_INFO),
                    (k < j)%nat -> entries !! k = Some e'' ->
                    Texture.tag e'' <> Texture.tag e)
              /\ ((forall (k : nat) (e'' : TEXTURE_INFO),
                     (k < i)%nat -> entries !! k = Some e'' ->
                     Texture.tag e'' <> Texture.tag e) -> j = i).
Proof.
  intros entries Hroom.
  destruct (load_all_registers calls (SceneManager_new p) env (SceneManager_new_ok p))
    as (this' & env' & Hrun & Hok & Hent & _).
  { cbn [SceneManager_new m_loadedTextures]. fold entries. lia. }
  rewrite SceneManager_new_entries in Hent. cbn [app] in Hent. fold entries in Hent.
  exists this', env'. split; [exact Hrun|].
  split.
  { rewrite <- Hent, loaded_entries_length by exact Hok. destruct Hok; lia. }
  split; [exact Hent|].
  split; [rewrite BindGLTextures_spec by exact Hok; now rewrite Hent|].
  split; [apply bind_calls_length|].
  intros i e He.
  destruct (bind_calls_lookup entries i 0 e He) as [Hunit Hbind].
  split; [exact Hunit|]. split; [exact Hbind|].
  rewrite FindTextureSlot_spec by exact Hok. rewrite Hent.
  destruct (list_find (fun e0 => Texture.tag e0 = Texture.tag e) entries)
    as [[j e']|] eqn:Hfind.
  - apply list_find_Some in Hfind as (Hj & Htag & Hfirst).
    assert (j <= i)%nat as Hle.
    { destruct (Nat.le_gt_cases j i) as [|Hgt]; [assumption|].
      exfalso. exact (Hfirst i e He Hgt eq_refl). }
    exists j, e'. repeat split; try assumption.
    + intros k e'' Hk He''. exact (Hfirst k e'' He'' Hk).
    + intros Hnone. destruct (Nat.eq_dec j i) as [|Hne]; [assumption|].
      exfalso. apply (Hnone j e'); [lia | exact Hj | exact Htag].
  - exfalso. apply list_find_None in Hfind.
    rewrite Forall_forall in Hfind.
    apply (Hfind e); [|reflexivity].
    apply list_elem_of_lookup. now exists i.
Qed.

Lemma BindGLTextures_after_loads_witness :
  exists this' env',
    load_all example_calls (SceneManager_new None, example_env)
    = Done ([true; false; true; false; true], (this', env'))
    /\ BindGLTextures (this', env')
       = Done (tt, (this', with_gl (gl_generated env')
                             (gl_calls env'
                                ++ [glActiveTexture GL_TEXTURE0;
                                    glBindTexture GL_TEXTURE_2D 1;
                                    glActiveTexture (GL_TEXTURE0 + 1);
                                    glBindTexture GL_TEXTURE_2D 3;
                                    glActiveTexture (GL_TEXTURE0 + 2);
                                    glBindTexture GL_TEXTURE_2D 4]) env'))
    /\ FindTextureSlot this' "leaf" = Done 1.
Proof.
  destruct (BindGLTextures_after_loads None example_env example_calls)
    as (this' & env' & Hrun & _ & _ & Hbind & _ & Hslots).
  - vm_compute. lia.
  - exists this', env'. split; [exact Hrun|]. split; [exact Hbind|].
    destruct (Hslots 1%nat {| Texture.tag := "leaf"; Texture.ID := 3 |} eq_refl)
      as (_ & _ & j & e' & Hslot & _ & _ & _ & _ & Hfirst).
    assert (j = 1%nat) as Hj.
    { apply Hfirst. intros k e'' Hk He''. destruct k as [|k]; [|lia].
      vm_compute in He''. injection He'' as <-. discriminate. }
    rewrite Hj in Hslot. exact Hslot.
Defined.

(** * Shader set-up by tag *)

(** C9.  On a registry in order and with a shader manager attached,
    [SetShaderTexture] returns after exactly two calls on the shader
    manager: bUseTexture set to 1 (true), then objectTexture set to what
    [FindTextureSlot] returned for the tag.  For a tag carried by no entry
    in use that value is -1, passed on as it is. *)
Theorem SetShaderTexture_passes_slot (textureTag : string) (this : SceneManager)
    (env : Env) (calls : ShaderManager) :
  registry_ok this ->
  m_pShaderManager this = Some calls ->
  exists slot,
    FindTextureSlot this textureTag = Done slot
    /\ SetShaderTexture textureTag (this, env)
       = Done (tt, (with_shader
                      (Some (calls ++ [setIntValue "bUseTexture" 1;
                                       setSampler2DValue "objectTexture" slot]))
                      this, env))
    /\ (textureTag ∉ map Texture.tag (loaded_entries this) -> slot = -1).
Proof.
  intros Hok Hsh. eexists. split; [apply FindTextureSlot_spec, Hok|].
  split; [apply SetShaderTexture_spec; assumption|].
  intros Hnot. now rewrite (list_find_absent _ _ Hnot).
Qed.

Lemma SetShaderTexture_passes_slot_witness :
  SetShaderTexture "brick" (one_texture, one_texture_env)
  = Done (tt, (with_shader
                 (Some [setIntValue "bUseTexture" 1;
                        setSampler2DValue "objectTexture" (-1)])
                 one_texture, one_texture_env)).
Proof.
  destruct (SetShaderTexture_passes_slot "brick" one_texture one_texture_env [])
    as (slot & _ & Hrun & Hslot).
  - split; [reflexivity | cbn; lia].
  - reflexivity.
  - rewrite Hrun, Hslot; [reflexivity|].
    cbn. intros Hin. apply list_elem_of_singleton in Hin. discriminate.
Defined.

(** C10.  From the constructor, after a run of calls of which at most
    16 succeed, a tag that no successful call of the run was given is not
    found: [FindTextureSlot] and [FindTextureID] both return -1. *)
Theorem FindTexture_unregistered (p : option ShaderManager) (env : Env)
    (calls : list (string * string)) (tag : string) :
  (length (filter (fun c => succeeds (files env) (fst c) = true) calls) <= 16)%nat ->
  (forall filename, (filename, tag) ∈ calls -> succeeds (files env) filename = false) ->
  exists bs this' env',
    load_all calls (SceneManager_new p, env) = Done (bs, (this', env'))
    /\ FindTextureSlot this' tag = Done (-1)
    /\ FindTextureID this' tag = Done (-1).
Proof.
  intros Hroom Hnever.
  destruct (load_all_registers calls (SceneManager_new p) env (SceneManager_new_ok p))
    as (this' & env' & Hrun & Hok & Hent & _).
  { rewrite registered_length. cbn [SceneManager_new m_loadedTextures]. lia. }
  rewrite SceneManager_new_entries in Hent. cbn [app] in Hent.
  assert (tag ∉ map Texture.tag (loaded_entries this')) as Hnot.
  { rewrite Hent. intros Hin.
    apply registered_tag in Hin as (filename & Hcall & Hs).
    rewrite (Hnever filename Hcall) in Hs. discriminate. }
  eexists _, this', env'. split; [exact Hrun|].
  rewrite FindTextureSlot_spec, FindTextureID_spec by exact Hok.
  now rewrite (list_find_absent _ _ Hnot).
Qed.

Lemma FindTexture_unregistered_witness :
  exists bs this' env',
    load_all example_calls (SceneManager_new None, example_env)
    = Done (bs, (this', env'))
    /\ FindTextureSlot this' "grey" = Done (-1)
    /\ FindTextureID this' "grey" = Done (-1).
Proof.
  apply (FindTexture_unregistered None example_env example_calls "grey").
  - vm_compute. lia.
  - intros filename Hin.
    repeat (apply elem_of_cons in Hin as [Heq|Hin];
            [inversion Heq; reflexivity|]).
    now apply elem_of_nil in Hin.
Defined.

(** * Further properties of the texture registry *)

(** ** One call, with the world it leaves *)

Lemma CreateGLTexture_register_world image textureID tag this env :
  0 <= m_loadedTextures this ->
  (Z.to_nat (m_loadedTextures this) < length (m_textureIDs this))%nat ->
  exists env',
    CreateGLTexture_register image textureID tag (this, env)
    = Done (true,
            (with_loadedTextures (m_loadedTextures this + 1)
               (with_textureIDs
                  (<[Z.to_nat (m_loadedTextures this) :=
                       {| Texture.tag := tag; Texture.ID := textureID |}]>
                     (m_textureIDs this)) this), env'))
    /\ files env' = files env /\ gl_names env' = gl_names env
    /\ gl_generated env' = gl_generated env
    /\ cout env' = cout env
    /\ stbi_allocated env' = stbi_allocated env
    /\ stbi_live env' = filter (fun q => q ≠ image) (stbi_live env)
    /\ gl_calls env'
       = gl_calls env ++ [glGenerateMipmap GL_TEXTURE_2D;
                          glBindTexture GL_TEXTURE_2D 0].
Proof.
  intros Hge Hlt.
  destruct (lookup_lt_is_Some_2 _ _ Hlt) as [e He].
  unfold CreateGLTexture_register, bind, gl, stbi_image_free, get_loadedTextures,
    set_texture_ID, set_texture_tag, incr_loadedTextures, ret.
  cbn. rewrite (at_index_Some _ _ _ Hge He). cbn.
  rewrite (at_index_Some _ _ {| Texture.tag := Texture.tag e; Texture.ID := textureID |} Hge)
    by (now apply list_lookup_insert_eq).
  cbn. rewrite list_insert_insert_eq.
  eexists. split; [reflexivity|]. cbn. rewrite <- app_assoc. auto 10.
Qed.

Lemma CreateGLTexture_loaded_world filename tag img this env :
  files env filename = Some img ->
  channels_ok img = true ->
  0 <= m_loadedTextures this ->
  (Z.to_nat (m_loadedTextures this) < length (m_textureIDs this))%nat ->
  exists env',
    CreateGLTexture filename tag (this, env)
    = Done (true,
            (with_loadedTextures (m_loadedTextures this + 1)
               (with_textureIDs
                  (<[Z.to_nat (m_loadedTextures this) :=
                       {| Texture.tag := tag;
                          Texture.ID := gl_names env (gl_generated env) |}]>
                     (m_textureIDs this)) this), env'))
    /\ files env' = files env /\ gl_names env' = gl_names env
    /\ gl_generated env' = S (gl_generated env)
    /\ stbi_allocated env' = S (stbi_allocated env)
    /\ stbi_live env'
       = filter (fun q => q ≠ stbi_allocated env) (stbi_live env ++ [stbi_allocated env])
    /\ gl_calls env'
       = gl_calls env
         ++ texture_setup_calls (gl_names env (gl_generated env))
         ++ [upload_call img (stbi_allocated env);
             glGenerateMipmap GL_TEXTURE_2D; glBindTexture GL_TEXTURE_2D 0].
Proof.
  intros Hfile Hch Hge Hlt.
  unfold CreateGLTexture, bind at 1 2. cbn. unfold stbi_load. rewrite Hfile. cbn.
  destruct (channels_ok_cases img Hch) as [H3|H4].
  - rewrite H3. cbn.
    match goal with
    | |- context [CreateGLTexture_register ?i ?t ?g (this, ?e)] =>
      destruct (CreateGLTexture_register_world i t g this e Hge Hlt)
        as (env' & Hrun & Hf & Hn & Hg & _ & Ha & Hl & Hc)
    end.
    exists env'. rewrite Hrun. split; [reflexivity|].
    unfold upload_call. cbn in *. rewrite Hc, <- !app_assoc. cbn.
    rewrite ?H3, ?H4. cbn. auto 10.
  - rewrite H4. cbn.
    match goal with
    | |- context [CreateGLTexture_register ?i ?t ?g (this, ?e)] =>
      destruct (CreateGLTexture_register_world i t g this e Hge Hlt)
        as (env' & Hrun & Hf & Hn & Hg & _ & Ha & Hl & Hc)
    end.
    exists env'. rewrite Hrun. split; [reflexivity|].
    unfold upload_call. cbn in *. rewrite Hc, <- !app_assoc. cbn.
    rewrite ?H3, ?H4. cbn. auto 10.
Qed.

Lemma CreateGLTexture_unsupported_world filename tag img this env :
  files env filename = Some img ->
  channels_ok img = false ->
  exists env',
    CreateGLTexture filename tag (this, env) = Done (false, (this, env'))
    /\ files env' = files env /\ gl_names env' = gl_names env
    /\ gl_generated env' = S (gl_generated env)
    /\ stbi_allocated env' = S (stbi_allocated env)
    /\ stbi_live env' = stbi_live env ++ [stbi_allocated env]
    /\ gl_calls env'
       = gl_calls env ++ texture_setup_calls (gl_names env (gl_generated env)).
Proof.
  intros Hfile Hch.
  unfold channels_ok in Hch. apply orb_false_iff in Hch as [H3 H4].
  unfold CreateGLTexture, bind at 1 2. cbn. unfold stbi_load. rewrite Hfile. cbn.
  rewrite H3, H4. cbn.
  eexists. split; [reflexivity|]. cbn. rewrite <- !app_assoc. auto 10.
Qed.

Lemma CreateGLTexture_missing_world filename tag this env :
  files env filename = None ->
  exists env',
    CreateGLTexture filename tag (this, env) = Done (false, (this, env'))
    /\ files env' = files env /\ gl_names env' = gl_names env
    /\ gl_generated env' = gl_generated env
    /\ stbi_allocated env' = stbi_allocated env
    /\ stbi_live env' = stbi_live env
    /\ gl_calls env' = gl_calls env
    /\ cout env' = cout env ++ ["Could not load image:" +:+ filename].
Proof.
  intros Hfile.
  unfold CreateGLTexture, bind at 1 2. cbn. unfold stbi_load. rewrite Hfile. cbn.
  eexists. split; [reflexivity|]. cbn. auto 10.
Qed.

Lemma filter_fresh (live : list nat) (p : nat) :
  Forall (fun q => (q < p)%nat) live ->
  filter (fun q => q ≠ p) (live ++ [p]) = live.
Proof.
  intros Hlive. rewrite filter_app, filter_cons_False, filter_nil, app_nil_r
    by (intros H; now apply H).
  induction Hlive as [|q live Hq _ IH]; [reflexivity|].
  rewrite filter_cons_True by lia. now rewrite IH.
Qed.

Lemma succeeds_decodes files filename :
  succeeds files filename = true -> decodes files filename = true.
Proof. unfold succeeds, decodes. now destruct (files filename). Qed.

(** X1.  Whenever the array has room, or the file does not load, a call
    returns, and the flag it returns tells what happened to the object:
    true, and one entry (the tag with the name just generated) was added
    after the entries in use, none of which changed; false, and the object
    is as it was.  The shader manager and the materials are never
    touched. *)
Theorem CreateGLTexture_effect (filename tag : string) (this : SceneManager)
    (env : Env) :
  registry_ok this ->
  m_loadedTextures this < 16 \/ succeeds (files env) filename = false ->
  exists this' env',
    CreateGLTexture filename tag (this, env)
    = Done (succeeds (files env) filename, (this', env'))
    /\ registry_ok this'
    /\ m_pShaderManager this' = m_pShaderManager this
    /\ m_objectMaterials this' = m_objectMaterials this
    /\ (succeeds (files env) filename = true ->
        m_loadedTextures this' = m_loadedTextures this + 1
        /\ loaded_entries this'
           = loaded_entries this
             ++ [{| Texture.tag := tag;
                    Texture.ID := gl_names env (gl_generated env) |}])
    /\ (succeeds (files env) filename = false -> this' = this).
Proof.
  intros Hok Hroom. pose proof Hok as [Hlen Hn]. unfold succeeds in *.
  destruct (files env filename) as [img|] eqn:Hfile.
  - destruct (channels_ok img) eqn:Hch.
    + destruct Hroom as [Hroom|?]; [|discriminate].
      assert (Z.to_nat (m_loadedTextures this) < length (m_textureIDs this))%nat
        as Hlt by lia.
      destruct (CreateGLTexture_loaded_world filename tag img this env Hfile Hch
                  (proj1 Hn) Hlt) as (env' & Hrun & _).
      eexists _, env'. split; [exact Hrun|].
      split; [split; cbn; [rewrite length_insert; exact Hlen | lia]|].
      split; [reflexivity|]. split; [reflexivity|].
      split; [|discriminate]. intros _. split; [reflexivity|].
      apply loaded_entries_push; [lia | exact Hlt].
    + destruct (CreateGLTexture_unsupported_world filename tag img this env Hfile Hch)
        as (env' & Hrun & _).
      exists this, env'. split; [exact Hrun|]. split; [exact Hok|].
      split; [reflexivity|]. split; [reflexivity|]. split; [discriminate|reflexivity].
  - destruct (CreateGLTexture_missing_world filename tag this env Hfile)
      as (env' & Hrun & _).
    exists this, env'. split; [exact Hrun|]. split; [exact Hok|].
    split; [reflexivity|]. split; [reflexivity|]. split; [discriminate|reflexivity].
Qed.

Lemma one_texture_ok : registry_ok one_texture.
Proof. split; [reflexivity | cbn; lia]. Qed.

Lemma CreateGLTexture_effect_witness :
  exists this' env',
    CreateGLTexture "textures/leaf.png" "leaf" (one_texture, one_texture_env)
    = Done (true, (this', env'))
    /\ loaded_entries this'
       = [{| Texture.tag := "wood"; Texture.ID := 1 |};
          {| Texture.tag := "leaf"; Texture.ID := 2 |}].
Proof.
  destruct (CreateGLTexture_effect "textures/leaf.png" "leaf" one_texture one_texture_env)
    as (this' & env' & Hrun & _ & _ & _ & Hadd & _).
  - split; [reflexivity | cbn; lia].
  - left. cbn. lia.
  - exists this', env'. split; [exact Hrun|].
    destruct (Hadd eq_refl) as [_ Hent]. exact Hent.
Defined.

(** X2.  Load, then look up: after a successful load under a tag that no
    entry in use carries, [FindTextureSlot] on that tag returns the
    counter's value before the load, and [FindTextureID] the name the
    driver generated during it. *)
Theorem CreateGLTexture_then_Find (filename tag : string) (img : Image)
    (this : SceneManager) (env : Env) :
  registry_ok this ->
  m_loadedTextures this < 16 ->
  files env filename = Some img ->
  channels_ok img = true ->
  tag ∉ map Texture.tag (loaded_entries this) ->
  exists this' env',
    CreateGLTexture filename tag (this, env) = Done (true, (this', env'))
    /\ FindTextureSlot this' tag = Done (m_loadedTextures this)
    /\ FindTextureID this' tag = Done (to_int32 (gl_names env (gl_generated env))).
Proof.
  intros Hok Hroom Hfile Hch Hnew. pose proof Hok as [Hlen Hn].
  assert (Z.to_nat (m_loadedTextures this) < length (m_textureIDs this))%nat
    as Hlt by lia.
  destruct (CreateGLTexture_loaded_world filename tag img this env Hfile Hch
              (proj1 Hn) Hlt) as (env' & Hrun & _).
  eexists _, env'. split; [exact Hrun|].
  set (this' := with_loadedTextures _ _).
  assert (registry_ok this') as Hok'
    by (split; cbn; [rewrite length_insert; exact Hlen | lia]).
  rewrite FindTextureSlot_spec, FindTextureID_spec by exact Hok'.
  unfold this'. rewrite loaded_entries_push by (lia || exact Hlt).
  rewrite list_find_app_r by (now apply list_find_absent).
  cbn. rewrite decide_True by reflexivity. cbn.
  rewrite loaded_entries_length by exact Hok.
  split; [f_equal; lia | reflexivity].
Qed.

Lemma CreateGLTexture_then_Find_witness :
  exists this' env',
    CreateGLTexture "textures/leaf.png" "leaf" (one_texture, one_texture_env)
    = Done (true, (this', env'))
    /\ FindTextureSlot this' "leaf" = Done 1
    /\ FindTextureID this' "leaf" = Done 2.
Proof.
  apply (CreateGLTexture_then_Find "textures/leaf.png" "leaf"
           {| width := 64; height := 64; colorChannels := 4 |}
           one_texture one_texture_env).
  - split; [reflexivity | cbn; lia].
  - cbn. lia.
  - reflexivity.
  - reflexivity.
  - cbn. intros Hin. apply list_elem_of_singleton in Hin. discriminate.
Defined.

Lemma list_find_present (tag : string) (entries : list TEXTURE_INFO) :
  tag ∈ map Texture.tag entries ->
  exists k e, list_find (fun e => Texture.tag e = tag) entries = Some (k, e).
Proof.
  intros Hin. apply list_elem_of_fmap in Hin as (e & Htag & He).
  destruct (list_find_elem_of (fun e => Texture.tag e = tag) entries e He (eq_sym Htag))
    as [[k e'] Hfind].
  now exists k, e'.
Qed.

(** X3.  A later load never changes what an earlier tag resolves to: for
    a tag some entry in use carries, [FindTextureSlot] and [FindTextureID]
    return after the call what they returned before it, also when the call
    registers that same tag again (the newer texture is not reachable by
    its tag). *)
Theorem CreateGLTexture_keeps_lookups (filename tag known : string)
    (this : SceneManager) (env : Env) :
  registry_ok this ->
  m_loadedTextures this < 16 \/ succeeds (files env) filename = false ->
  known ∈ map Texture.tag (loaded_entries this) ->
  exists b this' env',
    CreateGLTexture filename tag (this, env) = Done (b, (this', env'))
    /\ FindTextureSlot this' known = FindTextureSlot this known
    /\ FindTextureID this' known = FindTextureID this known.
Proof.
  intros Hok Hroom Hknown. pose proof Hok as [Hlen Hn].
  destruct (list_find_present _ _ Hknown) as (k & e & Hfind).
  rewrite (FindTextureSlot_spec this), (FindTextureID_spec this) by exact Hok.
  unfold succeeds in Hroom.
  destruct (files env filename) as [img|] eqn:Hfile.
  - destruct (channels_ok img) eqn:Hch.
    + destruct Hroom as [Hroom|?]; [|discriminate].
      assert (Z.to_nat (m_loadedTextures this) < length (m_textureIDs this))%nat
        as Hlt by lia.
      destruct (CreateGLTexture_loaded_world filename tag img this env Hfile Hch
                  (proj1 Hn) Hlt) as (env' & Hrun & _).
      eexists _, _, env'. split; [exact Hrun|].
      set (this' := with_loadedTextures _ _).
      assert (registry_ok this') as Hok'
        by (split; cbn; [rewrite length_insert; exact Hlen | lia]).
      rewrite FindTextureSlot_spec, FindTextureID_spec by exact Hok'.
      unfold this'. rewrite loaded_entries_push by (lia || exact Hlt).
      now rewrite (list_find_app_l _ _ _ _ _ Hfind), Hfind.
    + destruct (CreateGLTexture_unsupported_world filename tag img this env Hfile Hch)
        as (env' & Hrun & _).
      exists false, this, env'. split; [exact Hrun|].
      now rewrite FindTextureSlot_spec, FindTextureID_spec by exact Hok.
  - destruct (CreateGLTexture_missing_world filename tag this env Hfile)
      as (env' & Hrun & _).
    exists false, this, env'. split; [exact Hrun|].
    now rewrite FindTextureSlot_spec, FindTextureID_spec by exact Hok.
Qed.

Lemma CreateGLTexture_keeps_lookups_witness :
  exists b this' env',
    CreateGLTexture "textures/leaf.png" "wood" (one_texture, one_texture_env)
    = Done (b, (this', env'))
    /\ FindTextureSlot this' "wood" = Done 0
    /\ FindTextureID this' "wood" = Done 1.
Proof.
  apply (CreateGLTexture_keeps_lookups "textures/leaf.png" "wood" "wood"
           one_texture one_texture_env).
  - split; [reflexivity | cbn; lia].
  - left. cbn. lia.
  - cbn. apply list_elem_of_here.
Defined.

(** X4.  On a registry in order the two lookups agree.  [FindTextureSlot]
    returns -1 exactly for a tag that no entry in use carries, and
    otherwise an index below the counter whose entry carries the tag;
    [FindTextureID] returns -1 in the first case and in the second the
    handle of that same entry, converted to [int] (the handle itself when
    it is below 2^31). *)
Theorem FindTextureSlot_FindTextureID_agree (this : SceneManager) (tag : string) :
  registry_ok this ->
  exists slot,
    FindTextureSlot this tag = Done slot
    /\ -1 <= slot < m_loadedTextures this
    /\ (slot = -1 <-> tag ∉ map Texture.tag (loaded_entries this))
    /\ (slot = -1 -> FindTextureID this tag = Done (-1))
    /\ (0 <= slot ->
        exists e,
          m_textureIDs this !! Z.to_nat slot = Some e
          /\ Texture.tag e = tag
          /\ FindTextureID this tag = Done (to_int32 (Texture.ID e))
          /\ (0 <= Texture.ID e < 2 ^ 31 ->
              FindTextureID this tag = Done (Texture.ID e))).
Proof.
  intros Hok. rewrite FindTextureSlot_spec, FindTextureID_spec by exact Hok.
  destruct (list_find (fun e => Texture.tag e = tag) (loaded_entries this))
    as [[k e]|] eqn:Hfind.
  - apply list_find_Some in Hfind as (Hk & Htag & _).
    pose proof (lookup_lt_Some _ _ _ Hk) as Hlt.
    rewrite loaded_entries_length in Hlt by exact Hok.
    exists (Z.of_nat k). split; [reflexivity|]. split; [lia|].
    split; [|split; [intros Hneg; exfalso; lia|]].
    + split; [intros Hneg; exfalso; lia|]. intros Hnot. exfalso. apply Hnot.
      rewrite <- Htag. apply list_elem_of_fmap. exists e. split; [reflexivity|].
      apply list_elem_of_lookup. now exists k.
    + intros _. exists e. rewrite Nat2Z.id.
      rewrite loaded_entries_lookup in Hk by exact Hlt.
      split; [exact Hk|]. split; [exact Htag|]. split; [reflexivity|].
      intros Hrange. f_equal. unfold to_int32.
      rewrite Z.mod_small by lia.
      destruct (Z.ltb_spec (Texture.ID e) (2 ^ 31)); [reflexivity | lia].
  - exists (-1). split; [reflexivity|]. destruct Hok as [_ Hn].
    split; [lia|]. split; [|split; [reflexivity | intros Hpos; exfalso; lia]].
    split; [|reflexivity]. intros _ Hin.
    destruct (list_find_present _ _ Hin) as (k & e & Hsome). congruence.
Qed.

Lemma FindTextureSlot_FindTextureID_agree_witness :
  FindTextureSlot one_texture "wood" = Done 0
  /\ FindTextureID one_texture "wood" = Done 1.
Proof.
  destruct (FindTextureSlot_FindTextureID_agree one_texture "wood")
    as (slot & Hslot & _ & _ & _ & Hfound).
  - split; [reflexivity | cbn; lia].
  - assert (slot = 0) as ->
      by (pose proof Hslot as Hrun; vm_compute in Hrun; congruence).
    split; [exact Hslot|].
    destruct (Hfound (Z.le_refl 0)) as (e & He & _ & _ & Hid).
    cbn in He. injection He as <-. apply Hid. cbn. lia.
Defined.

(** X5.  Binding and sampling agree: for a tag some entry in use carries,
    let [unit] be the index of the first entry of the texture array that
    carries it, and [e] that entry.  [BindGLTextures] makes unit
    GL_TEXTURE0 + [unit] active and binds the handle of [e] right after;
    [FindTextureID] reports that handle; and [SetShaderTexture] passes
    [unit] as objectTexture. *)
Theorem SetShaderTexture_unit_is_bound (textureTag : string) (this : SceneManager)
    (env : Env) (calls : ShaderManager) :
  registry_ok this ->
  m_pShaderManager this = Some calls ->
  textureTag ∈ map Texture.tag (loaded_entries this) ->
  exists (unit : nat) (e : TEXTURE_INFO) (added : list gl_call) (env1 : Env),
    m_textureIDs this !! unit = Some e
    /\ Z.of_nat unit < m_loadedTextures this
    /\ Texture.tag e = textureTag
    /\ (forall (k : nat) (e' : TEXTURE_INFO),
          (k < unit)%nat -> m_textureIDs this !! k = Some e' ->
          Texture.tag e' <> textureTag)
    /\ BindGLTextures (this, env) = Done (tt, (this, env1))
    /\ gl_calls env1 = gl_calls env ++ added
    /\ added = bind_calls 0 (loaded_entries this)
    /\ added !! (2 * unit)%nat = Some (glActiveTexture (GL_TEXTURE0 + Z.of_nat unit))
    /\ added !! (2 * unit + 1)%nat = Some (glBindTexture GL_TEXTURE_2D (Texture.ID e))
    /\ FindTextureID this textureTag = Done (to_int32 (Texture.ID e))
    /\ FindTextureSlot this textureTag = Done (Z.of_nat unit)
    /\ SetShaderTexture textureTag (this, env1)
       = Done (tt, (with_shader
                      (Some (calls ++ [setIntValue "bUseTexture" 1;
                                       setSampler2DValue "objectTexture"
                                         (Z.of_nat unit)]))
                      this, env1)).
Proof.
  intros Hok Hsh Hin.
  destruct (list_find_present _ _ Hin) as (k & e & Hfind).
  pose proof Hfind as Hfound. apply list_find_Some in Hfound as (Hk & Htag & Hfirst).
  destruct (bind_calls_lookup (loaded_entries this) k 0 e Hk) as [Hunit Hbind].
  pose proof (lookup_lt_Some _ _ _ Hk) as Hlt.
  rewrite loaded_entries_length in Hlt by exact Hok.
  exists k, e, (bind_calls 0 (loaded_entries this)). eexists.
  split; [now rewrite <- loaded_entries_lookup by exact Hlt|].
  split; [destruct Hok; lia|]. split; [exact Htag|].
  split.
  { intros j e' Hj He'. apply (Hfirst j e'); [|exact Hj].
    rewrite loaded_entries_lookup by lia. exact He'. }
  split; [apply BindGLTextures_spec, Hok|].
  split; [reflexivity|]. split; [reflexivity|].
  split; [exact Hunit|]. split; [exact Hbind|].
  split; [rewrite FindTextureID_spec by exact Hok; now rewrite Hfind|].
  split; [rewrite FindTextureSlot_spec by exact Hok; now rewrite Hfind|].
  rewrite (SetShaderTexture_spec _ _ _ calls Hok Hsh). now rewrite Hfind.
Qed.

Lemma SetShaderTexture_unit_is_bound_witness :
  exists (unit : nat) (e : TEXTURE_INFO) (added : list gl_call) (env1 : Env),
    m_textureIDs one_texture !! unit = Some e
    /\ Z.of_nat unit < m_loadedTextures one_texture
    /\ Texture.tag e = "wood"%string
    /\ (forall (k : nat) (e' : TEXTURE_INFO),
          (k < unit)%nat -> m_textureIDs one_texture !! k = Some e' ->
          Texture.tag e' <> "wood"%string)
    /\ BindGLTextures (one_texture, one_texture_env) = Done (tt, (one_texture, env1))
    /\ gl_calls env1 = gl_calls one_texture_env ++ added
    /\ added = bind_calls 0 (loaded_entries one_texture)
    /\ added !! (2 * unit)%nat = Some (glActiveTexture (GL_TEXTURE0 + Z.of_nat unit))
    /\ added !! (2 * unit + 1)%nat = Some (glBindTexture GL_TEXTURE_2D (Texture.ID e))
    /\ FindTextureID one_texture "wood" = Done (to_int32 (Texture.ID e))
    /\ FindTextureSlot one_texture "wood" = Done (Z.of_nat unit)
    /\ SetShaderTexture "wood" (one_texture, env1)
       = Done (tt, (with_shader
                      (Some ([] ++ [setIntValue "bUseTexture" 1;
                                    setSampler2DValue "objectTexture"
                                      (Z.of_nat unit)]))
                      one_texture, env1)).
Proof.
  apply (SetShaderTexture_unit_is_bound "wood" one_texture one_texture_env []).
  - split; [reflexivity | cbn; lia].
  - reflexivity.
  - cbn. apply list_elem_of_here.
Defined.

(** ** [DestroyGLTextures], with the entries it leaves *)

Lemma renamed_length names entries : forall k,
  length (renamed names k entries) = length entries.
Proof.
  induction entries as [|e rest IH]; intros k; [reflexivity|].
  cbn. now rewrite IH.
Qed.

Lemma renamed_renamed names entries : forall k1 k2,
  renamed names k2 (renamed names k1 entries) = renamed names k2 entries.
Proof.
  induction entries as [|e rest IH]; intros k1 k2; [reflexivity|].
  cbn. now rewrite IH.
Qed.

Lemma renamed_find names (tag : string) entries : forall k,
  fst <$> list_find (fun e => Texture.tag e = tag) (renamed names k entries)
  = fst <$> list_find (fun e => Texture.tag e = tag) entries.
Proof.
  induction entries as [|e rest IH]; intros k; [reflexivity|].
  cbn [renamed list_find]. cbn [Texture.tag].
  destruct (decide (Texture.tag e = tag)); [reflexivity|].
  rewrite <- !option_fmap_compose.
  specialize (IH (S k)).
  destruct (list_find _ (renamed names (S k) rest)) as [[i x]|];
    destruct (list_find _ rest) as [[j y]|]; cbn in *; congruence.
Qed.

Lemma DestroyGLTextures_loop_entries env0 (n : Z) (fuel : nat) :
  forall this (i : Z) gen calls,
  length (m_textureIDs this) = 16%nat ->
  m_loadedTextures this = n ->
  0 <= i <= n -> n <= 16 ->
  (Z.to_nat (n - i) <= fuel)%nat ->
  exists this',
    while_loop fuel
      (fun '(i, st) => i <? m_loadedTextures (fst st))
      (fun '(i, st) =>
         obind (DestroyGLTextures_body i st) (fun '(_, st') => Done (i + 1, st')))
      (i, (this, with_gl gen calls env0))
    = Done (n,
            (this',
             with_gl (gen + Z.to_nat (n - i))
               (calls ++ map (fun k => glGenTextures (gl_names env0 k))
                           (seq gen (Z.to_nat (n - i))))
               env0))
    /\ m_loadedTextures this' = n
    /\ m_pShaderManager this' = m_pShaderManager this
    /\ m_objectMaterials this' = m_objectMaterials this
    /\ m_textureIDs this'
       = take (Z.to_nat i) (m_textureIDs this)
         ++ renamed (gl_names env0) gen
              (take (Z.to_nat (n - i)) (drop (Z.to_nat i) (m_textureIDs this)))
         ++ drop (Z.to_nat n) (m_textureIDs this).
Proof.
  induction fuel as [|fuel IH]; intros this i gen calls Hlen Hn Hi Hcap Hfuel.
  - assert (i = n) as -> by lia.
    rewrite while_loop_exit by (cbn; rewrite Hn; apply Z.ltb_irrefl).
    exists this. rewrite Z.sub_diag. change (Z.to_nat 0) with 0%nat.
    rewrite take_0. cbn [seq map renamed app].
    rewrite app_nil_r, Nat.add_0_r, take_drop. auto.
  - destruct (Z.ltb_spec i n) as [Hlt|Hge].
    + rewrite while_loop_step by (cbn; rewrite Hn; now apply Z.ltb_lt).
      destruct (lookup_lt_is_Some_2 (m_textureIDs this) (Z.to_nat i)) as [e He];
        [lia|].
      cbv beta iota.
      rewrite (DestroyGLTextures_body_spec _ _ _ _ _ e (proj1 Hi) He).
      cbn [obind]. set (e' := Texture.Build_TEXTURE_INFO _ _).
      set (this1 := with_textureIDs _ this).
      destruct (IH this1 (i + 1) (S gen)
                  (calls ++ [glGenTextures (gl_names env0 gen)]))
        as (this' & Hrun & Hn' & Hsh & Hmat & Harr); try lia.
      { unfold this1. cbn. now rewrite length_insert. }
      { exact Hn. }
      exists this'. rewrite Hrun.
      replace (Z.to_nat (n - i)) with (S (Z.to_nat (n - (i + 1)))) by lia.
      cbn [seq map]. rewrite <- app_assoc. cbn [app].
      replace (S gen + Z.to_nat (n - (i + 1)))%nat
        with (gen + S (Z.to_nat (n - (i + 1))))%nat by lia.
      split; [reflexivity|]. split; [exact Hn'|].
      split; [exact Hsh|]. split; [exact Hmat|].
      rewrite Harr. unfold this1. cbn [m_textureIDs with_textureIDs].
      replace (Z.to_nat (i + 1)) with (S (Z.to_nat i)) by lia.
      rewrite (take_S_r _ _ e') by (apply list_lookup_insert_eq; lia).
      rewrite take_insert_ge by lia.
      rewrite !drop_insert_lt by lia.
      rewrite (drop_S _ _ _ He). cbn [take renamed]. fold e'.
      now rewrite <- app_assoc.
    + assert (i = n) as -> by lia.
      rewrite while_loop_exit by (cbn; rewrite Hn; apply Z.ltb_irrefl).
      exists this. rewrite Z.sub_diag. change (Z.to_nat 0) with 0%nat.
    rewrite take_0. cbn [seq map renamed app].
      rewrite app_nil_r, Nat.add_0_r, take_drop. auto.
Qed.

Lemma DestroyGLTextures_world this env :
  registry_ok this ->
  exists this',
    DestroyGLTextures (this, env)
    = Done (tt,
            (this',
             with_gl (gl_generated env + Z.to_nat (m_loadedTextures this))
               (gl_calls env
                  ++ map (fun k => glGenTextures (gl_names env k))
                       (seq (gl_generated env) (Z.to_nat (m_loadedTextures this))))
               env))
    /\ registry_ok this'
    /\ m_loadedTextures this' = m_loadedTextures this
    /\ m_pShaderManager this' = m_pShaderManager this
    /\ m_objectMaterials this' = m_objectMaterials this
    /\ loaded_entries this'
       = renamed (gl_names env) (gl_generated env) (loaded_entries this).
Proof.
  intros [Hlen Hn]. unfold DestroyGLTextures, for_loadedTextures. cbn [fst].
  destruct (DestroyGLTextures_loop_entries env (m_loadedTextures this)
              (Z.to_nat (m_loadedTextures this)) this 0
              (gl_generated env) (gl_calls env) Hlen eq_refl)
    as (this' & Hrun & Hn' & Hsh & Hmat & Harr); try lia.
  rewrite with_gl_same, Z.sub_0_r in Hrun.
  rewrite Z.sub_0_r in Harr. change (Z.to_nat 0) with 0%nat in Harr.
  rewrite take_0, drop_0 in Harr. cbn [app] in Harr.
  exists this'. rewrite Hrun. cbn [obind].
  split; [reflexivity|].
  assert (length (m_textureIDs this') = 16%nat) as Hlen'.
  { rewrite Harr, length_app, renamed_length, <- length_app, take_drop. exact Hlen. }
  split; [split; [exact Hlen' | lia]|].
  split; [exact Hn'|]. split; [exact Hsh|]. split; [exact Hmat|].
  unfold loaded_entries. rewrite Hn', Harr.
  apply take_app_length'. rewrite renamed_length, length_take. lia.
Qed.

Lemma renamed_lookup names entries : forall (k i : nat) (e' : TEXTURE_INFO),
  renamed names k entries !! i = Some e' ->
  exists e, entries !! i = Some e
            /\ Texture.tag e' = Texture.tag e
            /\ Texture.ID e' = names (k + i)%nat.
Proof.
  induction entries as [|e0 rest IH]; intros k i e' He'; [discriminate|].
  destruct i as [|i].
  - cbn in He'. injection He' as <-. exists e0. cbn. now rewrite Nat.add_0_r.
  - cbn in He'. destruct (IH (S k) i e' He') as (e & He & Htag & Hid).
    exists e. split; [exact He|]. split; [exact Htag|].
    rewrite Hid. f_equal. lia.
Qed.

(** X6.  [DestroyGLTextures] does not empty the registry.  On a registry
    in order it returns with the counter and every tag as they were, so
    each tag is still found, at the same slot; what changes is the handle
    of each entry in use, overwritten by the name the driver generated for
    it during the call. *)
Theorem DestroyGLTextures_keeps_registry (this : SceneManager) (env : Env) :
  registry_ok this ->
  exists this' env',
    DestroyGLTextures (this, env) = Done (tt, (this', env'))
    /\ registry_ok this'
    /\ m_loadedTextures this' = m_loadedTextures this
    /\ (forall tag, FindTextureSlot this' tag = FindTextureSlot this tag)
    /\ (forall (i : nat) (e' : TEXTURE_INFO),
          loaded_entries this' !! i = Some e' ->
          exists e, loaded_entries this !! i = Some e
                    /\ Texture.tag e' = Texture.tag e
                    /\ Texture.ID e' = gl_names env (gl_generated env + i)%nat).
Proof.
  intros Hok.
  destruct (DestroyGLTextures_world this env Hok)
    as (this' & Hrun & Hok' & Hn & _ & _ & Hent).
  eexists this', _. split; [exact Hrun|]. split; [exact Hok'|].
  split; [exact Hn|]. split.
  - intros tag. rewrite !FindTextureSlot_spec by assumption. rewrite Hent.
    pose proof (renamed_find (gl_names env) tag (loaded_entries this)
                  (gl_generated env)) as Hfind.
    destruct (list_find _ (renamed _ _ _)) as [[i x]|];
      destruct (list_find _ (loaded_entries this)) as [[j y]|];
      cbn in Hfind; congruence.
  - intros i e' He'. rewrite Hent in He'. now apply renamed_lookup.
Qed.

Lemma DestroyGLTextures_keeps_registry_witness :
  exists this' env',
    DestroyGLTextures (one_texture, one_texture_env) = Done (tt, (this', env'))
    /\ m_loadedTextures this' = 1
    /\ FindTextureSlot this' "wood" = Done 0
    /\ loaded_entries this' = [{| Texture.tag := "wood"; Texture.ID := 2 |}].
Proof.
  destruct (DestroyGLTextures_keeps_registry one_texture one_texture_env)
    as (this' & env' & Hrun & Hok' & Hn & Hslot & Hent).
  - split; [reflexivity | cbn; lia].
  - exists this', env'. split; [exact Hrun|]. split; [exact Hn|].
    split; [rewrite Hslot; reflexivity|].
    pose proof (loaded_entries_length this' Hok') as Hlen.
    rewrite Hn in Hlen. cbn in Hlen.
    destruct (loaded_entries this') as [|e' [|? ?]]; try discriminate.
    destruct (Hent 0%nat e' eq_refl) as (e & He & Htag & Hid).
    cbn in He. injection He as <-. cbn in Htag, Hid.
    destruct e' as [t n]. cbn in *. now subst.
Defined.

(** X7.  [DestroyGLTextures] can be called again: two calls in a row on
    a registry in order both return, the counter is as before, and the GL
    calls added are two [glGenTextures] calls per entry in use and nothing
    else. *)
Theorem DestroyGLTextures_twice (this : SceneManager) (env : Env) :
  registry_ok this ->
  exists this' env',
    (DestroyGLTextures ;; DestroyGLTextures) (this, env) = Done (tt, (this', env'))
    /\ registry_ok this'
    /\ m_loadedTextures this' = m_loadedTextures this
    /\ gl_calls env'
       = gl_calls env
         ++ map (fun k => glGenTextures (gl_names env k))
              (seq (gl_generated env) (2 * Z.to_nat (m_loadedTextures this))).
Proof.
  intros Hok.
  destruct (DestroyGLTextures_world this env Hok)
    as (this1 & Hrun1 & Hok1 & Hn1 & _).
  destruct (DestroyGLTextures_world this1
              (with_gl (gl_generated env + Z.to_nat (m_loadedTextures this))
                 (gl_calls env
                    ++ map (fun k => glGenTextures (gl_names env k))
                         (seq (gl_generated env) (Z.to_nat (m_loadedTextures this))))
                 env) Hok1)
    as (this2 & Hrun2 & Hok2 & Hn2 & _).
  eexists this2, _. split.
  { unfold bind. rewrite Hrun1. cbn [obind]. exact Hrun2. }
  split; [exact Hok2|]. split; [congruence|].
  cbn. rewrite Hn1, <- app_assoc, <- map_app, <- seq_app.
  do 3 f_equal. lia.
Qed.

Lemma DestroyGLTextures_twice_witness :
  exists this' env',
    (DestroyGLTextures ;; DestroyGLTextures) (one_texture, one_texture_env)
    = Done (tt, (this', env'))
    /\ m_loadedTextures this' = 1
    /\ gl_calls env'
       = gl_calls one_texture_env ++ [glGenTextures 2; glGenTextures 3].
Proof.
  destruct (DestroyGLTextures_twice one_texture one_texture_env)
    as (this' & env' & Hrun & _ & Hn & Hcalls).
  - split; [reflexivity | cbn; lia].
  - exists this', env'. split; [exact Hrun|]. split; [exact Hn|].
    rewrite Hcalls. reflexivity.
Defined.

(** * The scene's textures *)

(** [LoadSceneTextures] is the run of its nine calls followed by
    [BindGLTextures]. *)
Lemma LoadSceneTextures_as_run (st : State) :
  LoadSceneTextures st
  = obind (load_all scene_textures st) (fun '(_, st') => BindGLTextures st').
Proof.
  unfold LoadSceneTextures, scene_textures. cbn [load_all]. unfold bind, ret.
  repeat match goal with
         | |- context [CreateGLTexture ?f ?t ?s] =>
           destruct (CreateGLTexture f t s) as [[? ?]| | |];
           cbn [obind]; try reflexivity
         end.
Qed.

Lemma scene_textures_tags :
  NoDup (map snd scene_textures).
Proof.
  cbn. repeat (apply NoDup_cons_2;
               [intros Hin;
                repeat (apply elem_of_cons in Hin as [Heq|Hin]; [discriminate|]);
                now apply elem_of_nil in Hin|]).
  apply NoDup_nil_2.
Qed.

(** In a run whose tags are all different, the entry of a successful call
    sits after the entries of the successful calls before it, and a call
    that failed has no entry. *)
Lemma registered_find files names calls :
  forall (k i : nat) (filename tag : string),
  NoDup (map snd calls) ->
  calls !! i = Some (filename, tag) ->
  fst <$> list_find (fun e => Texture.tag e = tag) (registered files names k calls)
  = if succeeds files filename
    then Some (length (filter (fun c => succeeds files (fst c) = true) (take i calls)))
    else None.
Proof.
  induction calls as [|[f0 t0] rest IH]; intros k i filename tag Hnodup Hi;
    [discriminate|].
  cbn [map snd] in Hnodup. apply NoDup_cons in Hnodup as [Hfresh Hnodup].
  assert (forall k', list_find (fun e => Texture.tag e = t0)
                       (registered files names k' rest) = None) as Hnone.
  { intros k'. apply list_find_absent. intros Hin.
    apply registered_tag in Hin as (f & Hf & _). apply Hfresh.
    apply list_elem_of_fmap. now exists (f, t0). }
  destruct i as [|i].
  - cbn in Hi. injection Hi as -> ->. cbn [take filter length registered].
    unfold succeeds. destruct (files filename) as [img|]; [|now rewrite Hnone].
    destruct (channels_ok img); [|now rewrite Hnone].
    cbn. now rewrite decide_True by reflexivity.
  - cbn in Hi. cbn [take registered].
    assert (t0 <> tag) as Hne.
    { intros ->. apply Hfresh. apply list_elem_of_fmap. exists (filename, tag).
      split; [reflexivity|]. apply list_elem_of_lookup. now exists i. }
    rewrite filter_cons. cbn [fst].
    destruct (files f0) as [img|] eqn:Hf0.
    + destruct (channels_ok img) eqn:Hch.
      * rewrite decide_True by (unfold succeeds; now rewrite Hf0).
        cbn [list_find]. cbn [Texture.tag]. rewrite decide_False by exact Hne.
        rewrite <- option_fmap_compose.
        specialize (IH (S k) i filename tag Hnodup Hi).
        destruct (list_find _ (registered files names (S k) rest)) as [[j x]|];
          destruct (succeeds files filename); cbn in *; congruence.
      * rewrite decide_False
          by (unfold succeeds; rewrite Hf0, Hch; discriminate).
        now apply IH.
    + rewrite decide_False by (unfold succeeds; rewrite Hf0; discriminate).
      now apply IH.
Qed.

Lemma filter_all {A} (P : A -> Prop) `{forall x, Decision (P x)} (l : list A) :
  Forall P l -> filter P l = l.
Proof.
  induction 1 as [|x l Hx _ IH]; [reflexivity|].
  now rewrite filter_cons_True, IH.
Qed.

(** The state [LoadSceneTextures] leaves on a new scene manager. *)
Lemma LoadSceneTextures_new p env :
  exists this1 env1,
    load_all scene_textures (SceneManager_new p, env)
    = Done (map (fun c => succeeds (files env) (fst c)) scene_textures, (this1, env1))
    /\ LoadSceneTextures (SceneManager_new p, env)
       = Done (tt, (this1, with_gl (gl_generated env1)
                             (gl_calls env1 ++ bind_calls 0 (loaded_entries this1))
                             env1))
    /\ registry_ok this1
    /\ loaded_entries this1
       = registered (files env) (gl_names env) (gl_generated env) scene_textures
    /\ m_pShaderManager this1 = p
    /\ files env1 = files env /\ gl_names env1 = gl_names env.
Proof.
  destruct (load_all_registers scene_textures (SceneManager_new p) env
              (SceneManager_new_ok p))
    as (this1 & env1 & Hrun & Hok & Hent & Hsh & _ & Hf & Hn).
  { rewrite registered_length. cbn [SceneManager_new m_loadedTextures].
    pose proof (length_filter (fun c => succeeds (files env) (fst c) = true)
                  scene_textures) as Hle.
    change (length scene_textures) with 9%nat in Hle. lia. }
  exists this1, env1. split; [exact Hrun|].
  split; [rewrite LoadSceneTextures_as_run, Hrun; cbn [obind];
          now apply BindGLTextures_spec|].
  rewrite SceneManager_new_entries in Hent. auto 10.
Qed.

(** X8.  On a new scene manager [LoadSceneTextures] returns, whatever
    files are there to load: the entries in use are as many as files that
    loaded, nine at most, and the GL calls end with the selection of a
    unit and the bind for each of them in turn. *)
Theorem LoadSceneTextures_returns (p : option ShaderManager) (env : Env) :
  exists this' env' earlier,
    LoadSceneTextures (SceneManager_new p, env) = Done (tt, (this', env'))
    /\ registry_ok this'
    /\ m_loadedTextures this'
       = Z.of_nat (length (filter (fun c => succeeds (files env) (fst c) = true)
                             scene_textures))
    /\ m_loadedTextures this' <= 9
    /\ m_pShaderManager this' = p
    /\ gl_calls env' = earlier ++ bind_calls 0 (loaded_entries this').
Proof.
  destruct (LoadSceneTextures_new p env)
    as (this1 & env1 & _ & Hrun & Hok & Hent & Hsh & _).
  eexists this1, _, (gl_calls env1). split; [exact Hrun|].
  pose proof (loaded_entries_length this1 Hok) as Hlen.
  rewrite Hent, registered_length in Hlen.
  pose proof (length_filter (fun c => succeeds (files env) (fst c) = true)
                scene_textures) as Hle.
  change (length scene_textures) with 9%nat in Hle.
  destruct Hok as [Hlen16 Hn].
  split; [now split|]. split; [lia|].
  split; [lia|]. split; [exact Hsh | reflexivity].
Qed.

(** X9.  After [LoadSceneTextures] on a new scene manager, the slot
    [FindTextureSlot] returns for one of the nine tags is the number of
    files before it in the list that loaded, when its own file loaded,
    and -1 when it did not: a file that fails to load moves every later
    texture one slot down. *)
Theorem LoadSceneTextures_slots (p : option ShaderManager) (env : Env)
    (i : nat) (filename tag : string) :
  scene_textures !! i = Some (filename, tag) ->
  exists this' env',
    LoadSceneTextures (SceneManager_new p, env) = Done (tt, (this', env'))
    /\ FindTextureSlot this' tag
       = Done (if succeeds (files env) filename
               then Z.of_nat (length (filter (fun c => succeeds (files env) (fst c) = true)
                                        (take i scene_textures)))
               else -1).
Proof.
  intros Hi.
  destruct (LoadSceneTextures_new p env)
    as (this1 & env1 & _ & Hrun & Hok & Hent & _).
  eexists this1, _. split; [exact Hrun|].
  rewrite FindTextureSlot_spec by exact Hok. rewrite Hent.
  pose proof (registered_find (files env) (gl_names env) scene_textures
                (gl_generated env) i filename tag scene_textures_tags Hi) as Hfind.
  destruct (list_find _ _) as [[j x]|]; destruct (succeeds (files env) filename);
    cbn in Hfind; congruence.
Qed.

Lemma LoadSceneTextures_slots_witness :
  exists this' env',
    LoadSceneTextures (SceneManager_new None, example_env) = Done (tt, (this', env'))
    /\ FindTextureSlot this' "wood" = Done 0.
Proof.
  exact (LoadSceneTextures_slots None example_env 1
           "textures/wood.jpg" "wood" eq_refl).
Defined.

(** X10.  [LoadSceneTextures] is not to be called twice: when all nine
    files load, a second call on the same scene manager runs off the
    texture array at index 16. *)
Theorem LoadSceneTextures_twice (p : option ShaderManager) (env : Env) :
  Forall (fun c => succeeds (files env) (fst c) = true) scene_textures ->
  (LoadSceneTextures ;; LoadSceneTextures) (SceneManager_new p, env)
  = OutOfBounds 16.
Proof.
  intros Hall.
  destruct (LoadSceneTextures_new p env)
    as (this1 & env1 & _ & Hrun & Hok & Hent & _ & Hf & Hn).
  unfold bind. rewrite Hrun. cbn [obind].
  rewrite LoadSceneTextures_as_run, load_all_overflow; [reflexivity | exact Hok |].
  pose proof (loaded_entries_length this1 Hok) as Hlen.
  rewrite Hent in Hlen. rewrite !registered_length in *.
  cbn [files with_gl]. rewrite Hf.
  rewrite (filter_all _ _ Hall) in *.
  change (length scene_textures) with 9%nat in *. lia.
Qed.

Lemma LoadSceneTextures_twice_witness :
  (LoadSceneTextures ;; LoadSceneTextures) (SceneManager_new None, all_files_env)
  = OutOfBounds 16.
Proof.
  apply (LoadSceneTextures_twice None all_files_env).
  repeat (apply Forall_cons; split; [reflexivity|]). apply Forall_nil_2.
Defined.

(** * Further properties of the material registry *)

Lemma material_first (tag : string) (before after : list OBJECT_MATERIAL)
    (e : OBJECT_MATERIAL) :
  tag ∉ map Material.tag before ->
  Material.tag e = tag ->
  list_find (fun e => Material.tag e = tag) (before ++ e :: after)
  = Some (length before, e).
Proof.
  intros Hnot Htag.
  rewrite list_find_app_r by (now apply material_absent).
  cbn. now rewrite decide_True by exact Htag.
Qed.

Lemma material_present (tag : string) (materials : list OBJECT_MATERIAL) :
  tag ∈ map Material.tag materials ->
  exists k e, list_find (fun e => Material.tag e = tag) materials = Some (k, e).
Proof.
  intros Hin. apply list_elem_of_fmap in Hin as (e & Htag & He).
  destruct (list_find_elem_of (fun e => Material.tag e = tag) materials e He
              (eq_sym Htag)) as [[k e'] Hfind].
  now exists k, e'.
Qed.

(** X11.  First match wins: when the first entry carrying the tag is
    [e], [FindMaterial] returns true and hands back the five shading
    fields of [e], whatever entries follow it (a later entry with the same
    tag is never seen); the tag field of [material] is left as it was. *)
Theorem FindMaterial_first_match (this : SceneManager) (tag : string)
    (material e : OBJECT_MATERIAL) (before after : list OBJECT_MATERIAL) :
  m_objectMaterials this = before ++ e :: after ->
  tag ∉ map Material.tag before ->
  Material.tag e = tag ->
  FindMaterial this tag material
  = Done (true,
          {| Material.ambientColor := Material.ambientColor e;
             Material.ambientStrength := Material.ambientStrength e;
             Material.diffuseColor := Material.diffuseColor e;
             Material.specularColor := Material.specularColor e;
             Material.shininess := Material.shininess e;
             Material.tag := Material.tag material |}).
Proof.
  intros Hmats Hnot Htag.
  rewrite FindMaterial_spec, Hmats, (material_first _ _ _ _ Hnot Htag).
  rewrite length_app. cbn [length].
  destruct (Z.eqb_spec (Z.of_nat (length before + S (length after))) 0); [lia|].
  reflexivity.
Qed.

Lemma FindMaterial_first_match_witness :
  FindMaterial
    (with_objectMaterials
       [goldMaterial; stale_material; goldMaterial] (SceneManager_new None))
    "" goldMaterial
  = Done (true,
          {| Material.ambientColor := Vec3 7.0 7.0 7.0;
             Material.ambientStrength := 7.0;
             Material.diffuseColor := Vec3 7.0 7.0 7.0;
             Material.specularColor := Vec3 7.0 7.0 7.0;
             Material.shininess := 7.0;
             Material.tag := "metal" |}).
Proof.
  apply (FindMaterial_first_match
           (with_objectMaterials
              [goldMaterial; stale_material; goldMaterial] (SceneManager_new None))
           "" goldMaterial stale_material [goldMaterial] [goldMaterial]).
  - reflexivity.
  - cbn. intros Hin. apply list_elem_of_singleton in Hin. discriminate.
  - reflexivity.
Defined.

(** X12.  With a shader manager attached, [SetShaderMaterial] on a tag
    whose first entry is [e] returns after exactly five calls on the
    shader manager, carrying the five shading fields of [e] under their
    uniform names; the object is otherwise unchanged, and what the local
    held before plays no part. *)
Theorem SetShaderMaterial_first_match (materialTag : string)
    (material e : OBJECT_MATERIAL) (before after : list OBJECT_MATERIAL)
    (this : SceneManager) (env : Env) (calls : ShaderManager) :
  m_pShaderManager this = Some calls ->
  m_objectMaterials this = before ++ e :: after ->
  materialTag ∉ map Material.tag before ->
  Material.tag e = materialTag ->
  SetShaderMaterial materialTag material (this, env)
  = Done (tt,
          (with_shader
             (Some (calls
                    ++ [setVec3Value "material.ambientColor" (Material.ambientColor e);
                        setFloatValue "material.ambientStrength" (Material.ambientStrength e);
                        setVec3Value "material.diffuseColor" (Material.diffuseColor e);
                        setVec3Value "material.specularColor" (Material.specularColor e);
                        setFloatValue "material.shininess" (Material.shininess e)]))
             this, env)).
Proof.
  intros Hsh Hmats Hnot Htag.
  rewrite (SetShaderMaterial_spec _ _ _ _ calls Hsh)
    by (rewrite Hmats; now destruct before).
  now rewrite Hmats, (material_first _ _ _ _ Hnot Htag).
Qed.

Lemma SetShaderMaterial_first_match_witness :
  SetShaderMaterial "metal" stale_material
    (DefineObjectMaterials (SceneManager_new (Some [])), example_env)
  = Done (tt,
          (with_shader
             (Some [setVec3Value "material.ambientColor" (Vec3 0.2 0.2 0.2);
                    setFloatValue "material.ambientStrength" 5.0;
                    setVec3Value "material.diffuseColor" (Vec3 0.2 0.2 0.2);
                    setVec3Value "material.specularColor" (Vec3 0.5 0.5 0.5);
                    setFloatValue "material.shininess" 12.0])
             (DefineObjectMaterials (SceneManager_new (Some []))), example_env)).
Proof.
  apply (SetShaderMaterial_first_match "metal" stale_material goldMaterial [] []
           (DefineObjectMaterials (SceneManager_new (Some []))) example_env []).
  - reflexivity.
  - reflexivity.
  - cbn. apply not_elem_of_nil.
  - reflexivity.
Defined.

(** X13.  [SetShaderMaterial] does not test the shader manager pointer:
    with no shader manager attached and a registry that is not empty it
    goes through the NULL pointer, for every tag, where [SetShaderTexture]
    in the same state returns without doing anything. *)
Theorem SetShaderMaterial_null_shader (materialTag : string)
    (material : OBJECT_MATERIAL) (this : SceneManager) (env : Env) :
  m_pShaderManager this = None ->
  m_objectMaterials this <> [] ->
  SetShaderMaterial materialTag material (this, env) = NullPointer
  /\ SetShaderTexture materialTag (this, env) = Done (tt, (this, env)).
Proof.
  intros Hsh Hne. split; [|now apply SetShaderTexture_detached].
  unfold SetShaderMaterial. cbn [fst].
  destruct (m_objectMaterials this) as [|m0 ms] eqn:Hms; [congruence|].
  cbn [length]. destruct (Z.gtb_spec (Z.of_nat (S (length ms))) 0) as [_|Hle]; [|lia].
  unfold bind, query. cbn [fst]. rewrite FindMaterial_spec, Hms. cbn [obind length].
  destruct (Z.eqb_spec (Z.of_nat (S (length ms))) 0) as [Hz|_]; [lia|].
  cbn [negb]. unfold SetShaderMaterial_pass, bind, shader. now rewrite Hsh.
Qed.

Lemma SetShaderMaterial_null_shader_witness :
  SetShaderMaterial "metal" stale_material
    (DefineObjectMaterials (SceneManager_new None), example_env)
  = NullPointer
  /\ SetShaderTexture "metal"
       (DefineObjectMaterials (SceneManager_new None), example_env)
     = Done (tt, (DefineObjectMaterials (SceneManager_new None), example_env)).
Proof.
  apply (SetShaderMaterial_null_shader "metal" stale_material
           (DefineObjectMaterials (SceneManager_new None)) example_env).
  - reflexivity.
  - discriminate.
Defined.

(** X14.  [DefineObjectMaterials] only appends: for a tag some entry
    already carries, [FindMaterial] returns after it what it returned
    before, so calling it again never changes the material a tag
    resolves to. *)
Theorem DefineObjectMaterials_keeps_lookups (this : SceneManager) (tag : string)
    (material : OBJECT_MATERIAL) :
  tag ∈ map Material.tag (m_objectMaterials this) ->
  FindMaterial (DefineObjectMaterials this) tag material
  = FindMaterial this tag material.
Proof.
  intros Hin. destruct (material_present _ _ Hin) as (k & e & Hfind).
  rewrite !FindMaterial_spec.
  cbn [DefineObjectMaterials m_objectMaterials with_objectMaterials].
  rewrite (list_find_app_l _ _ _ _ _ Hfind), Hfind, length_app.
  destruct (m_objectMaterials this) as [|m0 ms]; [discriminate|].
  cbn [length].
  destruct (Z.eqb_spec (Z.of_nat (S (length ms) + 1)) 0); [lia|].
  destruct (Z.eqb_spec (Z.of_nat (S (length ms))) 0); [lia|].
  reflexivity.
Qed.

Lemma DefineObjectMaterials_keeps_lookups_witness :
  FindMaterial
    (DefineObjectMaterials (with_objectMaterials [stale_material] (SceneManager_new None)))
    "" goldMaterial
  = FindMaterial (with_objectMaterials [stale_material] (SceneManager_new None))
      "" goldMaterial.
Proof.
  apply (DefineObjectMaterials_keeps_lookups
           (with_objectMaterials [stale_material] (SceneManager_new None))
           "" goldMaterial).
  cbn. apply list_elem_of_here.
Defined.

(** X15.  Define, then find: on a registry with no entry tagged "metal",
    after [DefineObjectMaterials] a lookup of "metal" returns true with
    the metal values (ambient colour 0.2, ambient strength 5.0, diffuse
    colour 0.2, specular colour 0.5, shininess 12.0). *)
Theorem DefineObjectMaterials_then_metal (this : SceneManager)
    (material : OBJECT_MATERIAL) :
  "metal"%string ∉ map Material.tag (m_objectMaterials this) ->
  FindMaterial (DefineObjectMaterials this) "metal" material
  = Done (true,
          {| Material.ambientColor := Vec3 0.2 0.2 0.2;
             Material.ambientStrength := 5.0;
             Material.diffuseColor := Vec3 0.2 0.2 0.2;
             Material.specularColor := Vec3 0.5 0.5 0.5;
             Material.shininess := 12.0;
             Material.tag := Material.tag material |}).
Proof.
  intros Hnot. rewrite FindMaterial_spec.
  change (m_objectMaterials (DefineObjectMaterials this))
    with (m_objectMaterials this ++ [goldMaterial]).
  rewrite (material_first "metal" (m_objectMaterials this) [] goldMaterial Hnot eq_refl).
  rewrite length_app. cbn [length].
  destruct (Z.eqb_spec (Z.of_nat (length (m_objectMaterials this) + 1)) 0); [lia|].
  reflexivity.
Qed.

Lemma DefineObjectMaterials_then_metal_witness :
  FindMaterial
    (DefineObjectMaterials (with_objectMaterials [stale_material] (SceneManager_new None)))
    "metal" stale_material
  = Done (true,
          {| Material.ambientColor := Vec3 0.2 0.2 0.2;
             Material.ambientStrength := 5.0;
             Material.diffuseColor := Vec3 0.2 0.2 0.2;
             Material.specularColor := Vec3 0.5 0.5 0.5;
             Material.shininess := 12.0;
             Material.tag := "" |}).
Proof.
  apply (DefineObjectMaterials_then_metal
           (with_objectMaterials [stale_material] (SceneManager_new None))
           stale_material).
  cbn. intros Hin. apply list_elem_of_singleton in Hin. discriminate.
Defined.

(** * What loads leave behind in the decoder and the driver *)

(** X16.  A successful load cleans up after itself: it returns with the
    decoder's live buffers as they were (the buffer it decoded into was
    freed) and with the GL calls extended by the generation of one name,
    its bind and four parameters, the upload (RGB for three channels,
    RGBA for four), the mipmaps and the unbind of the texture, in that
    order. *)
Theorem CreateGLTexture_loaded_clean (filename tag : string) (img : Image)
    (this : SceneManager) (env : Env) :
  registry_ok this ->
  heap_ok env ->
  m_loadedTextures this < 16 ->
  files env filename = Some img ->
  channels_ok img = true ->
  exists this' env',
    CreateGLTexture filename tag (this, env) = Done (true, (this', env'))
    /\ stbi_live env' = stbi_live env
    /\ heap_ok env'
    /\ gl_calls env'
       = gl_calls env
         ++ [glGenTextures (gl_names env (gl_generated env));
             glBindTexture GL_TEXTURE_2D (gl_names env (gl_generated env));
             glTexParameteri GL_TEXTURE_2D GL_TEXTURE_WRAP_S GL_REPEAT;
             glTexParameteri GL_TEXTURE_2D GL_TEXTURE_WRAP_T GL_REPEAT;
             glTexParameteri GL_TEXTURE_2D GL_TEXTURE_MIN_FILTER GL_LINEAR;
             glTexParameteri GL_TEXTURE_2D GL_TEXTURE_MAG_FILTER GL_LINEAR;
             upload_call img (stbi_allocated env);
             glGenerateMipmap GL_TEXTURE_2D;
             glBindTexture GL_TEXTURE_2D 0].
Proof.
  intros [Hlen Hn] Hheap Hroom Hfile Hch.
  assert (Z.to_nat (m_loadedTextures this) < length (m_textureIDs this))%nat
    as Hlt by lia.
  destruct (CreateGLTexture_loaded_world filename tag img this env Hfile Hch
              (proj1 Hn) Hlt) as (env' & Hrun & _ & _ & _ & Ha & Hl & Hc).
  eexists _, env'. split; [exact Hrun|].
  rewrite (filter_fresh _ _ Hheap) in Hl.
  split; [exact Hl|]. split; [|exact Hc].
  unfold heap_ok. rewrite Hl, Ha.
  eapply Forall_impl; [exact Hheap|]. cbn. lia.
Qed.

Lemma CreateGLTexture_loaded_clean_witness :
  exists this' env',
    CreateGLTexture "textures/leaf.png" "leaf" (one_texture, one_texture_env)
    = Done (true, (this', env'))
    /\ stbi_live env' = []
    /\ heap_ok env'
    /\ gl_calls env'
       = gl_calls one_texture_env
         ++ [glGenTextures 2;
             glBindTexture GL_TEXTURE_2D 2;
             glTexParameteri GL_TEXTURE_2D GL_TEXTURE_WRAP_S GL_REPEAT;
             glTexParameteri GL_TEXTURE_2D GL_TEXTURE_WRAP_T GL_REPEAT;
             glTexParameteri GL_TEXTURE_2D GL_TEXTURE_MIN_FILTER GL_LINEAR;
             glTexParameteri GL_TEXTURE_2D GL_TEXTURE_MAG_FILTER GL_LINEAR;
             glTexImage2D GL_TEXTURE_2D 0 GL_RGBA8 64 64 0 GL_RGBA GL_UNSIGNED_BYTE 1;
             glGenerateMipmap GL_TEXTURE_2D;
             glBindTexture GL_TEXTURE_2D 0].
Proof.
  apply (CreateGLTexture_loaded_clean "textures/leaf.png" "leaf"
           {| width := 64; height := 64; colorChannels := 4 |}
           one_texture one_texture_env).
  - split; [reflexivity | cbn; lia].
  - apply Forall_nil_2.
  - cbn. lia.
  - reflexivity.
  - reflexivity.
Defined.

(** X17.  A decoded image with an unsupported channel count also leaves
    a GL texture behind: the call generates a name, binds it and sets its
    four parameters, then returns false without uploading, without
    unbinding it and without recording the name anywhere in the object. *)
Theorem CreateGLTexture_unsupported_leaves_texture (filename tag : string)
    (img : Image) (this : SceneManager) (env : Env) :
  files env filename = Some img ->
  colorChannels img <> 3 ->
  colorChannels img <> 4 ->
  exists env',
    CreateGLTexture filename tag (this, env) = Done (false, (this, env'))
    /\ gl_generated env' = S (gl_generated env)
    /\ gl_calls env'
       = gl_calls env
         ++ [glGenTextures (gl_names env (gl_generated env));
             glBindTexture GL_TEXTURE_2D (gl_names env (gl_generated env));
             glTexParameteri GL_TEXTURE_2D GL_TEXTURE_WRAP_S GL_REPEAT;
             glTexParameteri GL_TEXTURE_2D GL_TEXTURE_WRAP_T GL_REPEAT;
             glTexParameteri GL_TEXTURE_2D GL_TEXTURE_MIN_FILTER GL_LINEAR;
             glTexParameteri GL_TEXTURE_2D GL_TEXTURE_MAG_FILTER GL_LINEAR].
Proof.
  intros Hfile H3 H4.
  assert (channels_ok img = false) as Hch.
  { unfold channels_ok. apply orb_false_iff. lia. }
  destruct (CreateGLTexture_unsupported_world filename tag img this env Hfile Hch)
    as (env' & Hrun & _ & _ & Hg & _ & _ & Hc).
  exists env'. auto.
Qed.

Lemma CreateGLTexture_unsupported_leaves_texture_witness :
  exists env',
    CreateGLTexture "textures/grey.png" "grey" (one_texture, one_texture_env)
    = Done (false, (one_texture, env'))
    /\ gl_generated env' = 2%nat
    /\ gl_calls env'
       = gl_calls one_texture_env
         ++ [glGenTextures 2;
             glBindTexture GL_TEXTURE_2D 2;
             glTexParameteri GL_TEXTURE_2D GL_TEXTURE_WRAP_S GL_REPEAT;
             glTexParameteri GL_TEXTURE_2D GL_TEXTURE_WRAP_T GL_REPEAT;
             glTexParameteri GL_TEXTURE_2D GL_TEXTURE_MIN_FILTER GL_LINEAR;
             glTexParameteri GL_TEXTURE_2D GL_TEXTURE_MAG_FILTER GL_LINEAR].
Proof.
  apply (CreateGLTexture_unsupported_leaves_texture "textures/grey.png" "grey"
           {| width := 8; height := 8; colorChannels := 1 |}
           one_texture one_texture_env).
  - reflexivity.
  - cbn. lia.
  - cbn. lia.
Defined.

(** X18.  A file that does not decode costs nothing: the call returns
    false after one "Could not load image" line, with the object, the GL
    calls, the generated names and the decoder's buffers all as they
    were, also when the texture array is full. *)
Theorem CreateGLTexture_missing_file (filename tag : string)
    (this : SceneManager) (env : Env) :
  files env filename = None ->
  exists env',
    CreateGLTexture filename tag (this, env) = Done (false, (this, env'))
    /\ gl_calls env' = gl_calls env
    /\ gl_generated env' = gl_generated env
    /\ stbi_live env' = stbi_live env
    /\ stbi_allocated env' = stbi_allocated env
    /\ cout env' = cout env ++ ["Could not load image:" +:+ filename].
Proof.
  intros Hfile.
  destruct (CreateGLTexture_missing_world filename tag this env Hfile)
    as (env' & Hrun & _ & _ & Hg & Ha & Hl & Hc & Hout).
  exists env'. auto 10.
Qed.

Lemma CreateGLTexture_missing_file_witness :
  exists env',
    CreateGLTexture "textures/none.jpg" "none" (one_texture, one_texture_env)
    = Done (false, (one_texture, env'))
    /\ gl_calls env' = gl_calls one_texture_env
    /\ gl_generated env' = 1%nat
    /\ stbi_live env' = []
    /\ stbi_allocated env' = 1%nat
    /\ cout env'
       = cout one_texture_env ++ ["Could not load image:textures/none.jpg"%string].
Proof.
  apply (CreateGLTexture_missing_file "textures/none.jpg" "none"
           one_texture one_texture_env).
  reflexivity.
Defined.

(** X19.  Over a run of calls that the array has room for, started with
    the decoder's buffers in order: the counter goes up by the number of
    calls that succeed, the driver generates one name for every file that
    decodes, and the decoder's live buffers grow by one for every file
    that decodes to an unsupported channel count, and by nothing else. *)
Theorem load_all_accounts (calls : list (string * string)) :
  forall (this : SceneManager) (env : Env),
  registry_ok this ->
  heap_ok env ->
  m_loadedTextures this
  + Z.of_nat (length (filter (fun c => succeeds (files env) (fst c) = true) calls))
  <= 16 ->
  exists this' env',
    load_all calls (this, env)
    = Done (map (fun c => succeeds (files env) (fst c)) calls, (this', env'))
    /\ heap_ok env'
    /\ files env' = files env
    /\ m_loadedTextures this'
       = m_loadedTextures this
         + Z.of_nat (length (filter (fun c => succeeds (files env) (fst c) = true) calls))
    /\ gl_generated env'
       = (gl_generated env
          + length (filter (fun c => decodes (files env) (fst c) = true) calls))%nat
    /\ length (stbi_live env')
       = (length (stbi_live env)
          + length (filter (fun c => decodes (files env) (fst c) = true
                                     /\ succeeds (files env) (fst c) = false) calls))%nat.
Proof.
  induction calls as [|[filename tag] rest IH]; intros this env Hok Hheap Hroom.
  - exists this, env. cbn. rewrite Z.add_0_r, !Nat.add_0_r. auto 10.
  - cbn [load_all map fst]. unfold bind at 1. rewrite !filter_cons in *. cbn [fst] in *.
    destruct (files env filename) as [img|] eqn:Hfile.
    + assert (decodes (files env) filename = true) as Hdec
          by (unfold decodes; now rewrite Hfile).
      destruct (channels_ok img) eqn:Hch.
      * assert (succeeds (files env) filename = true) as Hs
          by (unfold succeeds; now rewrite Hfile).
        rewrite decide_True in Hroom by exact Hs. cbn [length] in Hroom.
        rewrite (decide_True (P := succeeds _ _ = true)) by exact Hs.
        rewrite (decide_True (P := decodes _ _ = true)) by exact Hdec.
        rewrite decide_False by (rewrite Hs; intros [_ ?]; discriminate).
        destruct Hok as [Hlen Hn].
        assert (Z.to_nat (m_loadedTextures this) < length (m_textureIDs this))%nat
          as Hlt by lia.
        destruct (CreateGLTexture_loaded_world filename tag img this env Hfile Hch
                    (proj1 Hn) Hlt)
          as (env1 & Hrun & Hf & _ & Hg & Ha & Hl & _).
        rewrite Hrun. cbn [obind]. set (this1 := with_loadedTextures _ _).
        rewrite (filter_fresh _ _ Hheap) in Hl.
        destruct (IH this1 env1) as (this' & env' & Hrun' & Hheap' & Hf' & Hn' & Hg' & Hl').
        { split; cbn; [rewrite length_insert; exact Hlen | lia]. }
        { unfold heap_ok. rewrite Hl, Ha.
          eapply Forall_impl; [exact Hheap|]. cbn. lia. }
        { rewrite Hf. cbn. lia. }
        unfold bind. rewrite Hrun'. cbn [obind ret].
        exists this', env'. rewrite Hf in *. rewrite Hs.
        split; [reflexivity|]. split; [exact Hheap'|]. split; [congruence|].
        rewrite Hn', Hg', Hl', Hg, Hl. cbn [length m_loadedTextures with_loadedTextures this1].
        unfold this1. cbn. repeat split; lia.
      * assert (succeeds (files env) filename = false) as Hs
          by (unfold succeeds; now rewrite Hfile).
        rewrite decide_False in Hroom by (rewrite Hs; discriminate).
        rewrite (decide_False (P := succeeds _ _ = true)) by (rewrite Hs; discriminate).
        rewrite (decide_True (P := decodes _ _ = true)) by exact Hdec.
        rewrite decide_True by (now split).
        destruct (CreateGLTexture_unsupported_world filename tag img this env Hfile Hch)
          as (env1 & Hrun & Hf & _ & Hg & Ha & Hl & _).
        rewrite Hrun. cbn [obind].
        destruct (IH this env1 Hok) as (this' & env' & Hrun' & Hheap' & Hf' & Hn' & Hg' & Hl').
        { unfold heap_ok. rewrite Hl, Ha. apply Forall_app. split.
          - eapply Forall_impl; [exact Hheap|]. cbn. lia.
          - apply Forall_singleton. lia. }
        { now rewrite Hf. }
        unfold bind. rewrite Hrun'. cbn [obind ret].
        exists this', env'. rewrite Hf in *. rewrite Hs.
        split; [reflexivity|]. split; [exact Hheap'|]. split; [congruence|].
        rewrite Hn', Hg', Hl', Hg, Hl, length_app. cbn [length].
        repeat split; lia.
    + assert (decodes (files env) filename = false) as Hdec
          by (unfold decodes; now rewrite Hfile).
      assert (succeeds (files env) filename = false) as Hs
          by (unfold succeeds; now rewrite Hfile).
      rewrite decide_False in Hroom by (rewrite Hs; discriminate).
      rewrite (decide_False (P := succeeds _ _ = true)) by (rewrite Hs; discriminate).
      rewrite (decide_False (P := decodes _ _ = true)) by (rewrite Hdec; discriminate).
      rewrite decide_False by (rewrite Hdec; intros [? _]; discriminate).
      destruct (CreateGLTexture_missing_world filename tag this env Hfile)
        as (env1 & Hrun & Hf & _ & Hg & Ha & Hl & _).
      rewrite Hrun. cbn [obind].
      destruct (IH this env1 Hok) as (this' & env' & Hrun' & Hheap' & Hf' & Hn' & Hg' & Hl').
      { unfold heap_ok. now rewrite Hl, Ha. }
      { now rewrite Hf. }
      unfold bind. rewrite Hrun'. cbn [obind ret].
      exists this', env'. rewrite Hf in *. rewrite Hs.
      split; [reflexivity|]. split; [exact Hheap'|]. split; [congruence|].
      rewrite Hn', Hg', Hl', Hg, Hl. repeat split; lia.
Qed.

Lemma load_all_accounts_witness :
  exists this' env',
    load_all example_calls (SceneManager_new None, example_env)
    = Done ([true; false; true; false; true], (this', env'))
    /\ m_loadedTextures this' = 3
    /\ gl_generated env' = 4%nat
    /\ length (stbi_live env') = 1%nat.
Proof.
  destruct (load_all_accounts example_calls (SceneManager_new None) example_env)
    as (this' & env' & Hrun & _ & _ & Hn & Hg & Hl).
  - split; [reflexivity | cbn; lia].
  - apply Forall_nil_2.
  - vm_compute. discriminate.
  - exists this', env'. split; [exact Hrun|].
    rewrite Hn, Hg, Hl. repeat split; reflexivity.
Defined.

(** * The model transform *)

(** C5.  With a shader manager attached, [SetTransformations] makes one
    call on it, whatever the scale, the three angles in degrees and the
    position: [setMat4Value] on "model" with the matrix
    translate(position) * rotate(radians(X), (1,0,0)) *
    rotate(radians(Y), (0,1,0)) * rotate(radians(Z), (0,0,1)) *
    scale(scale), the factors in that order and every angle passed through
    [radians].  This holds for every GLM: for all five operations. *)
Theorem SetTransformations_pushes_model
    (glm_scale : vec3 -> mat4) (glm_rotate : float -> vec3 -> mat4)
    (glm_radians : float -> float) (glm_translate : vec3 -> mat4)
    (mat4_mul : mat4 -> mat4 -> mat4)
    (scaleXYZ : vec3) (XrotationDegrees YrotationDegrees ZrotationDegrees : float)
    (positionXYZ : vec3) (this : SceneManager) (env : Env) (calls : ShaderManager) :
  m_pShaderManager this = Some calls ->
  SetTransformations glm_scale glm_rotate glm_radians glm_translate mat4_mul
    scaleXYZ XrotationDegrees YrotationDegrees ZrotationDegrees positionXYZ
    (this, env)
  = Done (tt,
          (with_shader
             (Some (calls
                    ++ [setMat4Value "model"
                          (mat4_mul
                             (mat4_mul
                                (mat4_mul
                                   (mat4_mul
                                      (glm_translate positionXYZ)
                                      (glm_rotate (glm_radians XrotationDegrees)
                                         (Vec3 1.0 0.0 0.0)))
                                   (glm_rotate (glm_radians YrotationDegrees)
                                      (Vec3 0.0 1.0 0.0)))
                                (glm_rotate (glm_radians ZrotationDegrees)
                                   (Vec3 0.0 0.0 1.0)))
                             (glm_scale scaleXYZ))]))
             this, env)).
Proof.
  intros Hsh. unfold SetTransformations, shader. cbn [fst]. now rewrite Hsh.
Qed.

Lemma SetTransformations_pushes_model_witness :
  SetTransformations exact_scale exact_rotate exact_radians exact_translate exact_mul
    (Vec3 1.0 4.0 1.0) 0.0 0.0 0.0 (Vec3 0.0 0.0 0.0)
    (one_texture, one_texture_env)
  = Done (tt,
          (with_shader
             (Some ([]
                    ++ [setMat4Value "model"
                          (exact_mul
                             (exact_mul
                                (exact_mul
                                   (exact_mul
                                      (exact_translate (Vec3 0.0 0.0 0.0))
                                      (exact_rotate (exact_radians 0.0)
                                         (Vec3 1.0 0.0 0.0)))
                                   (exact_rotate (exact_radians 0.0)
                                      (Vec3 0.0 1.0 0.0)))
                                (exact_rotate (exact_radians 0.0)
                                   (Vec3 0.0 0.0 1.0)))
                             (exact_scale (Vec3 1.0 4.0 1.0)))]))
             one_texture, one_texture_env)).
Proof.
  apply (SetTransformations_pushes_model
           exact_scale exact_rotate exact_radians exact_translate exact_mul
           (Vec3 1.0 4.0 1.0) 0.0 0.0 0.0 (Vec3 0.0 0.0 0.0)
           one_texture one_texture_env []).
  reflexivity.
Defined.

(** With no shader manager attached the matrix is computed and dropped:
    nothing is called and nothing changes. *)
Lemma SetTransformations_detached
    (glm_scale : vec3 -> mat4) (glm_rotate : float -> vec3 -> mat4)
    (glm_radians : float -> float) (glm_translate : vec3 -> mat4)
    (mat4_mul : mat4 -> mat4 -> mat4)
    (scaleXYZ : vec3) (X Y Z : float) (positionXYZ : vec3)
    (this : SceneManager) (env : Env) :
  m_pShaderManager this = None ->
  SetTransformations glm_scale glm_rotate glm_radians glm_translate mat4_mul
    scaleXYZ X Y Z positionXYZ (this, env)
  = Done (tt, (this, env)).
Proof. intros Hsh. unfold SetTransformations. cbn [fst]. now rewrite Hsh. Qed.
